(** * Dice roller plugin: the roll command of [server/plugin.go]

    A shallow embedding of [generateDicePost], [filterEmptyString],
    [ExecuteCommand], [generateClosePost], [GetHelpMessage], [OnActivate]
    and [appError], together with the pieces of the Go runtime they rely
    on ([strings.TrimSpace], [strings.Fields], [strings.Join],
    [strings.HasPrefix], [strings.Replace], the [%d] and [%+d] verbs of
    [fmt.Sprintf], and [int] arithmetic on amd64).

    [rollDice] lives in [dice.go]; [generateDicePost] is embedded with
    [rollDice] as a parameter, and a model of [rollDice] written from the
    specification is given separately in module [Spec]. *)

From Stdlib Require Import ZArith Ascii String DecimalString Lia.
From stdpp Require Import base list strings.

Open Scope Z_scope.
Open Scope string_scope.

(** ** Go runtime *)

Module Go.

(** [int] is 64 bits wide on the target ([TARGET_ARCH=amd64]); addition
    wraps around in two's complement. *)
Definition minInt : Z := - 2 ^ 63.
Definition maxInt : Z := 2 ^ 63 - 1.

Definition wrap (z : Z) : Z := (z + 2 ^ 63) mod 2 ^ 64 - 2 ^ 63.

Definition add (a b : Z) : Z := wrap (a + b).

Definition isInt (z : Z) : Prop := minInt <= z <= maxInt.

(** *** White space, as [unicode.IsSpace] sees it

    Go strings are byte strings holding UTF-8.  The white space runes
    are the six ASCII ones, U+0085, U+00A0, U+1680, U+2000..U+200A,
    U+2028, U+2029, U+202F, U+205F and U+3000.  Their encodings start
    with a lead byte and continue with bytes in 0x80..0xBF, so looking
    for them byte by byte finds exactly the runes the decoder finds. *)

Definition isSpace1 (c : ascii) : bool :=
  let n := N_of_ascii c in
  ((9 <=? n) && (n <=? 13) || (n =? 32))%N.

Definition isSpace2 (c1 c2 : ascii) : bool :=
  let n1 := N_of_ascii c1 in
  let n2 := N_of_ascii c2 in
  ((n1 =? 194) && ((n2 =? 133) || (n2 =? 160)))%N.

Definition isSpace3 (c1 c2 c3 : ascii) : bool :=
  let n1 := N_of_ascii c1 in
  let n2 := N_of_ascii c2 in
  let n3 := N_of_ascii c3 in
  ((n1 =? 225) && (n2 =? 154) && (n3 =? 128)
   || (n1 =? 226) && (n2 =? 128)
      && ((128 <=? n3) && (n3 <=? 138) || (n3 =? 168) || (n3 =? 169)
          || (n3 =? 175))
   || (n1 =? 226) && (n2 =? 129) && (n3 =? 159)
   || (n1 =? 227) && (n2 =? 128) && (n3 =? 128))%N.

(** A string cut into white space runes and the bytes between them. *)
Inductive piece : Type :=
| Space (w : string)
| Byte (c : ascii).

Definition isSpacePiece (p : piece) : bool :=
  match p with Space _ => true | Byte _ => false end.

Definition pieceBytes (p : piece) : string :=
  match p with Space w => w | Byte c => String c EmptyString end.

Fixpoint pieces (s : string) : list piece :=
  match s with
  | EmptyString => []
  | String c1 s1 =>
      if isSpace1 c1 then Space (String c1 EmptyString) :: pieces s1
      else
        match s1 with
        | String c2 s2 =>
            if isSpace2 c1 c2
            then Space (String c1 (String c2 EmptyString)) :: pieces s2
            else
              match s2 with
              | String c3 s3 =>
                  if isSpace3 c1 c2 c3
                  then Space (String c1 (String c2 (String c3 EmptyString)))
                         :: pieces s3
                  else Byte c1 :: pieces s1
              | EmptyString => Byte c1 :: pieces s1
              end
        | EmptyString => Byte c1 :: pieces s1
        end
  end.

Fixpoint unpieces (ps : list piece) : string :=
  match ps with
  | [] => EmptyString
  | p :: ps' => pieceBytes p +:+ unpieces ps'
  end.

Fixpoint trimLeft (ps : list piece) : list piece :=
  match ps with
  | Space _ :: ps' => trimLeft ps'
  | _ => ps
  end.

Definition trimRight (ps : list piece) : list piece :=
  rev (trimLeft (rev ps)).

(** [strings.TrimSpace]: leading and trailing white space removed. *)
Definition TrimSpace (s : string) : string :=
  unpieces (trimRight (trimLeft (pieces s))).

(** [strings.Fields]: the maximal runs of bytes that are not white
    space, in order; no field is empty. *)
Fixpoint fieldsOf (ps : list piece) : list string :=
  match ps with
  | [] => []
  | Space _ :: ps' => fieldsOf ps'
  | Byte c :: ps' =>
      match ps' with
      | Byte _ :: _ =>
          match fieldsOf ps' with
          | f :: fs => String c f :: fs
          | [] => [String c EmptyString]
          end
      | _ => String c EmptyString :: fieldsOf ps'
      end
  end.

Definition Fields (s : string) : list string := fieldsOf (pieces s).

(** [strings.Join]. *)
Fixpoint Join (elems : list string) (sep : string) : string :=
  match elems with
  | [] => EmptyString
  | [e] => e
  | e :: rest => e +:+ sep +:+ Join rest sep
  end.

(** [fmt.Sprintf("%d", n)] and [fmt.Sprintf("%+d", n)]. *)
Definition Sprintf_d (n : Z) : string := NilZero.string_of_int (Z.to_int n).

Definition Sprintf_plus_d (n : Z) : string :=
  if (n <? 0)%Z then Sprintf_d n else "+" +:+ Sprintf_d n.

Definition newline : string := String "010" EmptyString.

(** [strings.HasPrefix]. *)
Fixpoint HasPrefix (s prefix : string) {struct prefix} : bool :=
  match prefix with
  | EmptyString => true
  | String p prefix' =>
      match s with
      | EmptyString => false
      | String c s' => Ascii.eqb c p && HasPrefix s' prefix'
      end
  end.

Fixpoint dropBytes (n : nat) (s : string) : string :=
  match n, s with
  | S n', String _ s' => dropBytes n' s'
  | _, _ => s
  end.

(** [strings.Replace(s, old, new, 1)]: the first occurrence of [old] in
    [s], looked for from the left, is replaced by [new]; without an
    occurrence the string is returned as it is. *)
Fixpoint ReplaceFirst (s old new : string) {struct s} : string :=
  if HasPrefix s old then new +:+ dropBytes (String.length old) s
  else
    match s with
    | EmptyString => EmptyString
    | String c s' => String c (ReplaceFirst s' old new)
    end.

End Go.

(** ** Data of the plugin *)

(** The two kinds of result [rollDice] hands back ([result.rollType]). *)
Inductive rollKind : Type :=
| numeric
| modifier.

(** The result of one roll request, with the fields [generateDicePost]
    reads. *)
Record rollResult : Type := mkRollResult {
  rollType : rollKind;
  results : list Z;
  sumModifier : Z
}.

(** [model.User], [model.Post] and [model.AppError], cut down to the
    fields this file touches. *)
Record User : Type := mkUser {
  Nickname : string;
  Username : string
}.

Record Post : Type := mkPost {
  UserId : string;
  ChannelId : string;
  RootId : string;
  Message : string
}.

Record AppError : Type := mkAppError {
  Where : string;
  Id : string;
  DetailedError : string;
  StatusCode : Z
}.

(** [appError(message, err)]; [err] is [None] for Go's [nil] and
    otherwise carries [err.Error()]. *)
Definition appError (message : string) (err : option string) : AppError :=
  let errorMessage :=
    match err with
    | Some e => e
    | None => EmptyString
    end in
  mkAppError "Dice Roller Plugin" message errorMessage 400.

Definition filterEmptyString (arr : list string) : list string :=
  fold_left
    (fun result val =>
       if String.eqb val EmptyString then result else (result ++ [val])%list)
    arr [].

Definition emptyRequestMessage : string :=
  "No roll request arguments found (such as '20', '4d6', etc.).".

Definition helpSuffix : string := " See `/roll help` for examples.".

(** The locals of the loop in [generateDicePost]. *)
Record loopState : Type := mkLoopState {
  sum : Z;
  singleResultCount : Z;
  numericDiceCount : Z;
  formattedRollDetails : list string
}.

Section Plugin.

(** The state of the process-wide random source of [math/rand]. *)
Context {Rng : Type}.
(** Go's [error] values as [rollDice] returns them, and [err.Error()]. *)
Context {error : Type} (Error : error -> string).
(** [rollDice] of [dice.go]: a result or an error, and the random
    source afterwards. *)
Context (rollDice : string -> Rng -> (rollResult + error) * Rng).
(** [p.API.GetUser]. *)
Context (GetUser : string -> User + AppError).
(** [p.diceBotID]. *)
Context (diceBotID : string).

(** The inner [for _, roll := range result.results]. *)
Definition addRolls (rollDetails : string) (sum : Z) (rolls : list Z)
  : string * Z :=
  fold_left
    (fun acc roll =>
       (acc.1 +:+ Go.Sprintf_d roll +:+ " ", Go.add acc.2 roll))
    rolls (rollDetails, sum).

(** One turn of [for i, rollRequest := range rollRequests].  The index
    [i] is below the length of [formattedRollDetails], made with one slot
    for each request. *)
Definition loopBody (i : nat) (rollRequest : string) (st : loopState)
  (g : Rng) : (loopState + AppError) * Rng :=
  if String.eqb rollRequest "sum" then (inl st, g)
  else
    match rollDice rollRequest g with
    | (inr err, g') =>
        (inr (appError (Error err +:+ helpSuffix) (Some (Error err))), g')
    | (inl result, g') =>
        match rollType result with
        | numeric =>
            let rollDetails := rollRequest +:+ ": " in
            let '(rollDetails, sum') :=
              addRolls rollDetails (sum st) (results result) in
            (inl {| sum := sum';
                    singleResultCount :=
                      Go.add (singleResultCount st)
                             (Z.of_nat (length (results result)));
                    numericDiceCount := Go.add (numericDiceCount st) 1;
                    formattedRollDetails :=
                      <[i := Go.TrimSpace rollDetails]>
                        (formattedRollDetails st) |}, g')
        | modifier =>
            (inl {| sum := Go.add (sum st) (sumModifier result);
                    singleResultCount := singleResultCount st;
                    numericDiceCount := numericDiceCount st;
                    formattedRollDetails :=
                      <[i := Go.Sprintf_plus_d (sumModifier result)]>
                        (formattedRollDetails st) |}, g')
        end
    end.

Fixpoint rollLoop (i : nat) (rollRequests : list string) (st : loopState)
  (g : Rng) : (loopState + AppError) * Rng :=
  match rollRequests with
  | [] => (inl st, g)
  | rollRequest :: rest =>
      match loopBody i rollRequest st g with
      | (inl st', g') => rollLoop (S i) rest st' g'
      | (inr e, g') => (inr e, g')
      end
  end.

Definition initState (n : nat) : loopState :=
  {| sum := 0;
     singleResultCount := 0;
     numericDiceCount := 0;
     formattedRollDetails := replicate n EmptyString |}.

(** A query that is blank once trimmed is replaced by the default
    request, one roll of a die with a hundred sides. *)
Definition defaultQuery (query : string) : string :=
  if String.eqb (Go.TrimSpace query) EmptyString then "100" else query.

Definition displayNameOf (user : User) : string :=
  if String.eqb (Nickname user) EmptyString
  then Username user else Nickname user.

Definition header (displayName query : string) : string :=
  "**" +:+ displayName +:+ "** rolls *" +:+ query +:+ "* = ".

Definition boldSum (sum : Z) : string := "**" +:+ Go.Sprintf_d sum +:+ "**".

(** The lines added under the total. *)
Definition breakdown (details : list string) : string :=
  Go.newline +:+ "- "
    +:+ Go.Join (filterEmptyString details) (Go.newline +:+ "- ").

Definition generateDicePost (query userID channelID rootID : string)
  (g : Rng) : (Post + AppError) * Rng :=
  match GetUser userID with
  | inr userErr => (inr userErr, g)
  | inl user =>
      let displayName := displayNameOf user in
      let query := defaultQuery query in
      let text := header displayName query in
      let rollRequests := Go.Fields query in
      if (length rollRequests =? 0)%nat || String.eqb query "sum"
      then (inr (appError emptyRequestMessage None), g)
      else
        match rollLoop 0 rollRequests (initState (length rollRequests)) g with
        | (inr e, g') => (inr e, g')
        | (inl st, g') =>
            let text := text +:+ boldSum (sum st) in
            let text :=
              if (1 <? singleResultCount st)%Z
              then text +:+ breakdown (formattedRollDetails st)
              else text in
            (inl {| UserId := diceBotID;
                    ChannelId := channelID;
                    RootId := rootID;
                    Message := text |}, g')
        end
  end.

End Plugin.

(** ** The command handler

    [ExecuteCommand], [generateClosePost], [GetHelpMessage] and
    [OnActivate], over the calls of the plugin API they make. *)

Definition trigger : string := "roll".
Definition closeCommand : string := "close".
Definition closeModifier : string := "AndClose".

(** [model.Command], with the fields [OnActivate] sets. *)
Record Command : Type := mkCommand {
  Trigger : string;
  Description : string;
  DisplayName : string;
  AutoComplete : bool;
  AutoCompleteDesc : string;
  AutoCompleteHint : string
}.

(** [model.CommandResponse]; the zero value is the empty response. *)
Record CommandResponse : Type := mkCommandResponse {
  ResponseType : string;
  Text : string;
  Props : list (string * string)
}.

(** [model.CommandArgs], with the fields [ExecuteCommand] reads. *)
Module CommandArgs.
Record t : Type := mk {
  Command : string;
  UserId : string;
  ChannelId : string;
  RootId : string
}.
End CommandArgs.

(** The calls made on [p.API].  [Server] is the state of the Mattermost
    server behind it, [regError] the type of the errors of
    [RegisterCommand]. *)
Module API.
Record t (Server regError : Type) : Type := mk {
  GetUser : string -> User + AppError;
  CreatePost : Post -> Server -> (Post + AppError) * Server;
  RegisterCommand : Command -> Server -> option regError * Server
}.
Arguments mk {Server regError}.
Arguments GetUser {Server regError}.
Arguments CreatePost {Server regError}.
Arguments RegisterCommand {Server regError}.
End API.

(** [model.CommandResponseTypeEphemeral]. *)
Definition CommandResponseTypeEphemeral : string := "ephemeral".

Definition GetHelpMessage : CommandResponse :=
  let props := [("from_webhook", "true")] in
  {| ResponseType := CommandResponseTypeEphemeral;
     Text :=
       "Here are some examples:" +:+ Go.newline
       +:+ "- `/roll 20` to roll a 20-sided die. You can use any number."
       +:+ Go.newline
       +:+ "- `/roll 5D6` to roll five 6-sided dice in one go."
       +:+ Go.newline
       +:+ "- `/roll 5D6+3` to roll five 6-sided dice and add 3 the result of each die."
       +:+ Go.newline
       +:+ "- `/roll 5D6 +3` (with a space) to roll five 6-sided dice and add 3 the total."
       +:+ Go.newline
       +:+ "- `/roll 5 d8 13D20` to roll different dice at the same time."
       +:+ Go.newline
       +:+ "- `/roll help` will show this help text."
       +:+ Go.newline +:+ Go.newline
       +:+ " ⚅ ⚂ Let's get rolling! ⚁ ⚄";
     Props := props |}.

Definition emptyResponse : CommandResponse :=
  {| ResponseType := EmptyString; Text := EmptyString; Props := [] |}.

(** The test on the query that asks for the help text. *)
Definition isHelp (query : string) : bool :=
  String.eqb query "help" || String.eqb query "--help"
  || String.eqb query "h" || String.eqb query "-h".

Definition rollCommandCmd : Command :=
  {| Trigger := trigger;
     Description := "Roll one or more dice";
     DisplayName := "Dice roller ⚄";
     AutoComplete := true;
     AutoCompleteDesc :=
       "Roll one or several dice. ⚁ ⚄ Try /roll help for a list of possibilities.";
     AutoCompleteHint := "100" |}.

Definition closeCommandCmd : Command :=
  {| Trigger := closeCommand;
     Description := "Close current round";
     DisplayName := "Dice roller ⚄";
     AutoComplete := true;
     AutoCompleteDesc := "Close the current round.";
     AutoCompleteHint := "Close" |}.

Definition rollAndCloseCmd : Command :=
  {| Trigger := trigger +:+ closeModifier;
     Description := "Roll one or more dice and close current round";
     DisplayName := "Dice roller ⚄";
     AutoComplete := true;
     AutoCompleteDesc := "Roll and close the round afterwards.";
     AutoCompleteHint := "100" |}.

(** The error of [ExecuteCommand] for a command without a trigger it
    knows. *)
Definition triggerError (command : string) : AppError :=
  appError ("Expected a trigger but got " +:+ command) None.

Section Handler.

Context {Rng error Server regError : Type} (Error : error -> string).
Context (rollDice : string -> Rng -> (rollResult + error) * Rng).
Context (diceBotID : string).

(** [OnActivate]: the random source is seeded from the clock, then the
    three commands are registered, and the first registration that fails
    ends the activation with its error.  [Seed] is [rand.Seed] and [now]
    the reading of the clock. *)
Definition OnActivate (api : API.t Server regError) (Seed : Z -> Rng)
  (now : Z) (srv : Server) : option regError * Rng * Server :=
  let g := Seed now in
  match API.RegisterCommand api rollCommandCmd srv with
  | (Some rollError, srv1) => (Some rollError, g, srv1)
  | (None, srv1) =>
      match API.RegisterCommand api closeCommandCmd srv1 with
      | (Some closeError, srv2) => (Some closeError, g, srv2)
      | (None, srv2) =>
          match API.RegisterCommand api rollAndCloseCmd srv2 with
          | (Some rollAndCloseError, srv3) => (Some rollAndCloseError, g, srv3)
          | (None, srv3) => (None, g, srv3)
          end
      end
  end.

Definition generateClosePost (api : API.t Server regError)
  (userID channelID rootID : string) : Post + AppError :=
  match API.GetUser api userID with
  | inr userErr => inr userErr
  | inl user =>
      let displayName := displayNameOf user in
      let text :=
        "**Rien ne va plus!!!!**" +:+ Go.newline +:+ "_" +:+ displayName
          +:+ " closes the round._" in
      inl {| UserId := diceBotID;
             ChannelId := channelID;
             RootId := rootID;
             Message := text |}
  end.

(** [ExecuteCommand]; [API] is [None] when [p.API] is [nil].  The result
    comes with the random source and the server as the call leaves
    them. *)
Definition ExecuteCommand (API : option (API.t Server regError))
  (args : CommandArgs.t) (g : Rng) (srv : Server)
  : (CommandResponse + AppError) * Rng * Server :=
  match API with
  | None => (inr (appError "Cannot access the plugin API." None), g, srv)
  | Some api =>
      let command := CommandArgs.Command args in
      (* from [if closeRound] to the end *)
      let finish (validTrigger closeRound : bool) (g : Rng) (srv : Server) :=
        let closeRound' :=
          if Go.HasPrefix command ("/" +:+ closeCommand)
          then true else closeRound in
        let validTrigger' :=
          if Go.HasPrefix command ("/" +:+ closeCommand)
          then true else validTrigger in
        let reply (srv : Server) :=
          if validTrigger' then (inl emptyResponse, g, srv)
          else
            (inr (triggerError command), g, srv) in
        if closeRound' then
          match generateClosePost api (CommandArgs.UserId args)
                  (CommandArgs.ChannelId args) (CommandArgs.RootId args) with
          | inr generateClosePostError => (inr generateClosePostError, g, srv)
          | inl post =>
              match API.CreatePost api post srv with
              | (inr createClosePostError, srv') =>
                  (inr createClosePostError, g, srv')
              | (inl _, srv') => reply srv'
              end
          end
        else reply srv in
      let rollCommand := "/" +:+ trigger in
      if Go.HasPrefix command rollCommand then
        let query := Go.TrimSpace (Go.ReplaceFirst command rollCommand EmptyString) in
        let closes := Go.HasPrefix command (rollCommand +:+ closeModifier) in
        let query :=
          if closes
          then Go.TrimSpace
                 (Go.ReplaceFirst command (rollCommand +:+ closeModifier)
                    EmptyString)
          else query in
        let closeRound := closes in
        if isHelp query then (inl GetHelpMessage, g, srv)
        else
          match generateDicePost Error rollDice (API.GetUser api) diceBotID
                  query (CommandArgs.UserId args) (CommandArgs.ChannelId args)
                  (CommandArgs.RootId args) g with
          | (inr generatePostError, g') => (inr generatePostError, g', srv)
          | (inl post, g') =>
              match API.CreatePost api post srv with
              | (inr createPostError, srv') => (inr createPostError, g', srv')
              | (inl _, srv') => finish true closeRound g' srv'
              end
          end
      else finish false false g srv
  end.

End Handler.

(** ** The contract the specification states for the roll engine

    [Evaluate(query) -> (results, total, err)], written after the words of
    the specification, over the same [rollDice]: the requests are rolled
    in order, the keyword [sum] is skipped, the first request that fails
    aborts the evaluation, and the total is the mathematical sum of the
    rolls of the numeric results and of the values of the modifiers. *)

Inductive evalError (error : Type) : Type :=
| EmptyRequest
| InvalidRequest (token : string) (err : error).
Arguments EmptyRequest {error}.
Arguments InvalidRequest {error} token err.

Definition sumZ (l : list Z) : Z := fold_right Z.add 0 l.

(** What one result adds to the total. *)
Definition contribution (r : rollResult) : Z :=
  match rollType r with
  | numeric => sumZ (results r)
  | modifier => sumModifier r
  end.

(** How many dice one result rolled. *)
Definition diceOf (r : rollResult) : Z :=
  match rollType r with
  | numeric => Z.of_nat (length (results r))
  | modifier => 0
  end.

Definition total (rs : list (string * rollResult)) : Z :=
  sumZ (map (fun tr => contribution tr.2) rs).

Definition diceRolled (rs : list (string * rollResult)) : Z :=
  sumZ (map (fun tr => diceOf tr.2) rs).

Fixpoint rollsText (rolls : list Z) : string :=
  match rolls with
  | [] => EmptyString
  | roll :: rest => Go.Sprintf_d roll +:+ " " +:+ rollsText rest
  end.

(** The display detail of one result: the request and its rolls, or the
    signed modifier. *)
Definition detailLine (tr : string * rollResult) : string :=
  match rollType tr.2 with
  | numeric => Go.TrimSpace (tr.1 +:+ ": " +:+ rollsText (results tr.2))
  | modifier => Go.Sprintf_plus_d (sumModifier tr.2)
  end.

(** The message for a total, a count of dice and the detail lines: the
    header, the total in bold and, when more than one die was rolled, the
    lines under it. *)
Definition summary (displayName query : string) (shown dice : Z)
  (lines : list string) : string :=
  let text :=
    ("**" +:+ displayName +:+ "** rolls *" +:+ query +:+ "* = ")
      +:+ ("**" +:+ Go.Sprintf_d shown +:+ "**") in
  if (1 <? dice)%Z
  then text +:+ Go.newline +:+ "- " +:+ Go.Join lines (Go.newline +:+ "- ")
  else text.

(** A byte of ASCII that is not white space. *)
Definition plainByte (c : ascii) : bool :=
  (N_of_ascii c <? 128)%N && negb (Go.isSpace1 c).

(** The pieces of a string in which no white space is found. *)
Definition bytePieces (s : string) : list Go.piece :=
  map Go.Byte (list_ascii_of_string s).

(** Where a run of bytes ends in a scan: at the end or at white space. *)
Definition endsRun (rest : list Go.piece) : Prop :=
  rest = [] \/ exists w r, rest = Go.Space w :: r.

(** The rolls of a line of the breakdown, each after one space. *)
Fixpoint spacedRolls (rolls : list Z) : string :=
  match rolls with
  | [] => EmptyString
  | roll :: rest => " " +:+ Go.Sprintf_d roll +:+ spacedRolls rest
  end.

(** A line of the breakdown as it reads: the request, a colon and the
    rolls, or the signed modifier. *)
Definition shownLine (tr : string * rollResult) : string :=
  match rollType tr.2 with
  | numeric => tr.1 +:+ ":" +:+ spacedRolls (results tr.2)
  | modifier => Go.Sprintf_plus_d (sumModifier tr.2)
  end.

Definition notSum (token : string) : bool := negb (String.eqb token "sum").

Definition nonEmpty (s : string) : bool := negb (String.eqb s EmptyString).

(** The error [generateDicePost] makes of the message of an error of
    [rollDice]. *)
Definition invalidRequestError (message : string) : AppError :=
  appError (message +:+ helpSuffix) (Some message).

(** The slice [formattedRollDetails] as the loop leaves it: one slot per
    request, empty where the request is the keyword [sum]. *)
Fixpoint slots (tokens : list string) (rs : list (string * rollResult))
  : list string :=
  match tokens with
  | [] => []
  | token :: rest =>
      if String.eqb token "sum" then EmptyString :: slots rest rs
      else
        match rs with
        | tr :: rs' => detailLine tr :: slots rest rs'
        | [] => EmptyString :: slots rest []
        end
  end.

Section Contract.

Context {Rng : Type} {error : Type}.
Context (rollDice : string -> Rng -> (rollResult + error) * Rng).

(** The ordered sequence of results, each with its request. *)
Fixpoint evalTokens (tokens : list string) (g : Rng)
  : (list (string * rollResult) + string * error) * Rng :=
  match tokens with
  | [] => (inl [], g)
  | token :: rest =>
      if String.eqb token "sum" then evalTokens rest g
      else
        match rollDice token g with
        | (inr err, g') => (inr (token, err), g')
        | (inl r, g') =>
            match evalTokens rest g' with
            | (inl rs, g'') => (inl ((token, r) :: rs), g'')
            | (inr e, g'') => (inr e, g'')
            end
        end
  end.

Definition Evaluate (query : string) (g : Rng)
  : (list (string * rollResult) * Z + evalError error) * Rng :=
  let query :=
    if String.eqb (Go.TrimSpace query) EmptyString then "100" else query in
  let tokens := Go.Fields query in
  match tokens with
  | [] => (inr EmptyRequest, g)
  | _ =>
      if String.eqb query "sum" then (inr EmptyRequest, g)
      else
        match evalTokens tokens g with
        | (inl rs, g') => (inl (rs, total rs), g')
        | (inr (token, err), g') => (inr (InvalidRequest token err), g')
        end
  end.

End Contract.

(** ** [rollDice], from the specification *)

Module Spec.

(** Modelled from the spec: the random source behind [rollDice]
    ([dice.go] is where it is drawn from).  One operation, a draw of an
    integer meant to lie in [1, sides], which hands back the advanced
    generator. *)
Class RandomSource (Rng : Type) : Type :=
  draw : Z -> Rng -> Z * Rng.

(** Modelled from the spec: the law of a draw, an integer of
    [1, sides] ([dice.go] holds the call to the generator). *)
Definition drawInRange {Rng : Type} {source : RandomSource Rng} : Prop :=
  forall (sides : Z) (g : Rng), 1 <= sides -> 1 <= (draw sides g).1 <= sides.

(** Modelled from the spec: what a request asks for, after
    classification (the grammar of [dice.go]).  A plain number [N] is
    the dice request [1dN]; a dice request without a modifier has
    modifier 0. *)
Inductive request : Type :=
| Dice (count sides modif : Z)
| Modifier (value : Z).

(** Modelled from the spec: the digits of the grammar of a request
    ([dice.go] holds the patterns). *)
Definition isDigit (c : ascii) : bool :=
  let n := N_of_ascii c in ((48 <=? n) && (n <=? 57))%N.

Definition digitValue (c : ascii) : Z := Z.of_N (N_of_ascii c) - 48.

Fixpoint parseDigitsFrom (acc : Z) (s : string) : option Z :=
  match s with
  | EmptyString => Some acc
  | String c s' =>
      if isDigit c then parseDigitsFrom (acc * 10 + digitValue c) s'
      else None
  end.

(** Modelled from the spec: the integers of a request, one digit or
    more, base ten, no upper bound ([dice.go] holds the parsing). *)
Definition parseDigits (s : string) : option Z :=
  match s with
  | EmptyString => None
  | _ => parseDigitsFrom 0 s
  end.

(** Modelled from the spec: a signed integer, an explicit sign and then
    digits only ([dice.go] holds the parsing). *)
Definition parseSigned (s : string) : option Z :=
  match s with
  | String "+" s' => parseDigits s'
  | String "-" s' => Z.opp <$> parseDigits s'
  | _ => None
  end.

(** Modelled from the spec: the cut of a request at its separator
    letter or at its sign ([dice.go] holds the patterns).  The cut is at
    the first byte that satisfies [p]: what is before it, and the rest
    from that byte on. *)
Fixpoint cutAt (p : ascii -> bool) (s : string) : option (string * string) :=
  match s with
  | EmptyString => None
  | String c s' =>
      if p c then Some (EmptyString, s)
      else
        match cutAt p s' with
        | Some (before, rest) => Some (String c before, rest)
        | None => None
        end
  end.

Definition isD (c : ascii) : bool :=
  Ascii.eqb c "d" || Ascii.eqb c "D".

Definition isSign (c : ascii) : bool :=
  Ascii.eqb c "+" || Ascii.eqb c "-".

Definition tailOf (s : string) : string :=
  match s with
  | EmptyString => EmptyString
  | String _ s' => s'
  end.

(** Modelled from the spec: the classification of one request, in the
    order the specification fixes: a signed integer alone, then a dice
    request with an attached modifier, then a dice request, then a
    plain integer. *)
Definition classify (token : string) : option request :=
  match parseSigned token with
  | Some v => Some (Modifier v)
  | None =>
      match cutAt isD token with
      | Some (countText, dRest) =>
          let count :=
            match countText with
            | EmptyString => Some 1
            | _ => parseDigits countText
            end in
          let sidesText := tailOf dRest in
          match count with
          | None => None
          | Some count =>
              match cutAt isSign sidesText with
              | Some (sidesDigits, modText) =>
                  match parseDigits sidesDigits, parseSigned modText with
                  | Some sides, Some modif => Some (Dice count sides modif)
                  | _, _ => None
                  end
              | None =>
                  match parseDigits sidesText with
                  | Some sides => Some (Dice count sides 0)
                  | None => None
                  end
              end
          end
      | None =>
          match parseDigits token with
          | Some sides => Some (Dice 1 sides 0)
          | None => None
          end
      end
  end.

(** Modelled from the spec: the error of [rollDice], which names the
    request that matched no grammar. *)
Inductive error : Type :=
| Invalid (token : string).

Definition Error (e : error) : string :=
  match e with
  | Invalid token => "'" +:+ token +:+ "' is not a valid roll request."
  end.

Section Roll.

Context {Rng : Type} {source : RandomSource Rng}.

(** Modelled from the spec: [count] dice, each outcome with the
    modifier added before it is recorded, in the order drawn. *)
Fixpoint rollMany (count : nat) (sides modif : Z) (g : Rng)
  : list Z * Rng :=
  match count with
  | O => ([], g)
  | S k =>
      let '(outcome, g1) := draw sides g in
      let '(rest, g2) := rollMany k sides modif g1 in
      ((outcome + modif) :: rest, g2)
  end.

(** Modelled from the spec: the plain outcomes of the same dice, before
    the modifier is added ([dice.go] holds the draws). *)
Fixpoint drawMany (count : nat) (sides : Z) (g : Rng) : list Z :=
  match count with
  | O => []
  | S k => let '(outcome, g1) := draw sides g in
           outcome :: drawMany k sides g1
  end.

(** Modelled from the spec: [rollDice] of [dice.go]. *)
Definition rollDice (token : string) (g : Rng)
  : (rollResult + error) * Rng :=
  match classify token with
  | None => (inr (Invalid token), g)
  | Some (Modifier value) =>
      (inl {| rollType := modifier; results := []; sumModifier := value |},
       g)
  | Some (Dice count sides modif) =>
      let '(rolls, g') := rollMany (Z.to_nat count) sides modif g in
      (inl {| rollType := numeric; results := rolls;
              sumModifier := modif |}, g')
  end.

End Roll.

End Spec.

(** ** A plugin to run

    A linear congruential generator for the random source, a user
    directory with one user, and the plugin assembled from them. *)

Module Demo.

#[export] Instance lcg : Spec.RandomSource Z :=
  fun sides g =>
    (1 + g mod sides,
     (6364136223846793005 * g + 1442695040888963407) mod 2 ^ 64).

Definition GetUser (userID : string) : User + AppError :=
  if String.eqb userID "u1" then inl (mkUser EmptyString "bob")
  else inr (mkAppError "GetUser" "user not found" EmptyString 404).

Abbreviation post query g :=
  (generateDicePost Spec.Error (Spec.rollDice (source := lcg)) GetUser
     "dicebot" query "u1" "c1" "r1" g).

Definition messageOf (r : (Post + AppError) * Z) : string :=
  match r.1 with
  | inl post => Message post
  | inr e => Id e
  end.

(** A server that keeps what it is given: the commands registered and
    the posts created, in order. *)
Definition Server : Type := list Command * list Post.

Definition api : API.t Server unit :=
  {| API.GetUser := GetUser;
     API.CreatePost := fun post srv => (inl post, (srv.1, (srv.2 ++ [post])%list));
     API.RegisterCommand := fun cmd srv => (None, ((srv.1 ++ [cmd])%list, srv.2)) |}.

(** The same server, except that it takes one post only. *)
Definition onePostApi : API.t Server unit :=
  {| API.GetUser := GetUser;
     API.CreatePost :=
       fun post srv =>
         match srv.2 with
         | [] => (inl post, (srv.1, [post]))
         | _ => (inr (mkAppError "CreatePost" "channel is full" EmptyString 500),
                 srv)
         end;
     API.RegisterCommand := fun cmd srv => (None, ((srv.1 ++ [cmd])%list, srv.2)) |}.

Abbreviation run api command g srv :=
  (ExecuteCommand Spec.Error (Spec.rollDice (source := lcg)) "dicebot"
     (Some api) (CommandArgs.mk command "u1" "c1" "r1") g srv).

End Demo.

(** * Properties *)

(** ** Integers of the Go runtime *)

Lemma wrap_isInt (z : Z) : Go.isInt (Go.wrap z).
Proof.
  unfold Go.isInt, Go.wrap, Go.minInt, Go.maxInt.
  pose proof (Z.mod_pos_bound (z + 2 ^ 63) (2 ^ 64) ltac:(lia)). lia.
Qed.

Lemma wrap_id (z : Z) : Go.isInt z -> Go.wrap z = z.
Proof.
  unfold Go.isInt, Go.wrap, Go.minInt, Go.maxInt. intros Hz.
  rewrite Z.mod_small; lia.
Qed.

Lemma wrap_add_l (a b : Z) : Go.wrap (Go.wrap a + b) = Go.wrap (a + b).
Proof.
  unfold Go.wrap.
  replace ((a + 2 ^ 63) mod 2 ^ 64 - 2 ^ 63 + b + 2 ^ 63)
    with ((a + 2 ^ 63) mod 2 ^ 64 + b) by lia.
  rewrite Zplus_mod_idemp_l. f_equal. f_equal. lia.
Qed.

Lemma add_wrap (s a b : Z) : Go.add (Go.wrap (s + a)) b = Go.wrap (s + (a + b)).
Proof. unfold Go.add. rewrite wrap_add_l. f_equal. lia. Qed.

(** ** Strings *)

Lemma append_nil_l (s : string) : EmptyString +:+ s = s.
Proof. reflexivity. Qed.

Lemma append_cons (c : ascii) (s t : string) :
  String c s +:+ t = String c (s +:+ t).
Proof. reflexivity. Qed.

Ltac step_append := rewrite ?append_cons, ?append_nil_l in *.

Lemma append_nil_r (s : string) : s +:+ EmptyString = s.
Proof.
  induction s as [|c s IH]; step_append; [reflexivity | now rewrite IH].
Qed.

Lemma append_assoc (a b c : string) : (a +:+ b) +:+ c = a +:+ b +:+ c.
Proof.
  induction a as [|x a IH]; step_append; [reflexivity | now rewrite IH].
Qed.

Lemma append_eq_nil (a b : string) :
  a +:+ b = EmptyString -> a = EmptyString /\ b = EmptyString.
Proof. destruct a; step_append; [auto | discriminate]. Qed.

Lemma append_cancel_l (a b c : string) : a +:+ b = a +:+ c -> b = c.
Proof.
  induction a as [|x a IH]; step_append; [auto |].
  intros H. injection H. exact IH.
Qed.

Lemma eqb_empty_false (s : string) :
  s <> EmptyString -> String.eqb s EmptyString = false.
Proof. intros H. apply String.eqb_neq. exact H. Qed.

(** ** White space *)

Lemma isSpace2_colon_r (c : ascii) : Go.isSpace2 c ":" = false.
Proof. unfold Go.isSpace2. simpl. apply andb_false_r. Qed.

Lemma isSpace3_colon_m (c1 c3 : ascii) : Go.isSpace3 c1 ":" c3 = false.
Proof.
  unfold Go.isSpace3. simpl.
  now rewrite !andb_false_r.
Qed.

Lemma isSpace3_colon_r (c1 c2 : ascii) : Go.isSpace3 c1 c2 ":" = false.
Proof.
  unfold Go.isSpace3. simpl.
  now rewrite !andb_false_r.
Qed.

Lemma pieces_colon_head (b : string) :
  Go.pieces (String ":" b) = Go.Byte ":" :: Go.pieces b.
Proof. destruct b as [|c2 [|c3 s3]]; reflexivity. Qed.

(** A colon survives the cutting: it is never part of a white space rune. *)
Lemma pieces_colon (n : nat) :
  forall a b : string, (String.length a <= n)%nat ->
    In (Go.Byte ":") (Go.pieces (a +:+ String ":" b)).
Proof.
  induction n as [|n IH]; intros a b Hlen.
  - destruct a; [|simpl in Hlen; lia].
    step_append. rewrite pieces_colon_head. now left.
  - destruct a as [|c1 a1].
    { step_append. rewrite pieces_colon_head. now left. }
    assert (H1 : In (Go.Byte ":") (Go.pieces (a1 +:+ String ":" b))).
    { apply IH. simpl in Hlen. lia. }
    rewrite append_cons. cbn [Go.pieces].
    destruct (Go.isSpace1 c1); [now right|].
    destruct a1 as [|c2 a2].
    { step_append. rewrite isSpace2_colon_r.
      destruct b as [|c3 s3]; [now right|].
      rewrite isSpace3_colon_m. now right. }
    rewrite append_cons in *.
    destruct (Go.isSpace2 c1 c2).
    { right. apply IH. simpl in Hlen. lia. }
    destruct a2 as [|c3 a3].
    { step_append. rewrite isSpace3_colon_r. now right. }
    rewrite append_cons in *.
    destruct (Go.isSpace3 c1 c2 c3); [|now right].
    right. apply IH. simpl in Hlen. lia.
Qed.

Lemma trimLeft_keeps (c : ascii) (ps : list Go.piece) :
  In (Go.Byte c) ps -> In (Go.Byte c) (Go.trimLeft ps).
Proof.
  induction ps as [|p ps IH]; [auto|].
  intros [Hp | Hin].
  - subst p. now left.
  - destruct p as [w|c']; simpl; [auto | now right].
Qed.

Lemma trimRight_keeps (c : ascii) (ps : list Go.piece) :
  In (Go.Byte c) ps -> In (Go.Byte c) (Go.trimRight ps).
Proof.
  intros Hin. unfold Go.trimRight.
  apply in_rev. rewrite rev_involutive.
  apply trimLeft_keeps. now apply in_rev in Hin.
Qed.

Lemma unpieces_byte (c : ascii) (ps : list Go.piece) :
  In (Go.Byte c) ps -> Go.unpieces ps <> EmptyString.
Proof.
  induction ps as [|p ps IH]; [intros []|].
  intros [Hp | Hin] Heq; simpl in Heq; apply append_eq_nil in Heq as [H1 H2].
  - subst p. discriminate.
  - now apply IH.
Qed.

Lemma TrimSpace_colon (a b : string) :
  Go.TrimSpace (a +:+ String ":" b) <> EmptyString.
Proof.
  unfold Go.TrimSpace.
  apply (unpieces_byte ":"), trimRight_keeps, trimLeft_keeps.
  now apply (pieces_colon (String.length a)).
Qed.

Lemma fieldsOf_nil_no_byte (ps : list Go.piece) :
  Go.fieldsOf ps = [] -> forall c, ~ In (Go.Byte c) ps.
Proof.
  induction ps as [|p ps IH]; intros Hf c Hin; [destruct Hin|].
  destruct p as [w|c'].
  - destruct Hin as [Hp | Hin]; [discriminate|]. now apply (IH Hf c).
  - simpl in Hf. destruct ps as [|[w|c''] ps']; [discriminate..|].
    destruct (Go.fieldsOf (Go.Byte c'' :: ps')); discriminate.
Qed.

Lemma no_byte_fieldsOf_nil (ps : list Go.piece) :
  (forall c, ~ In (Go.Byte c) ps) -> Go.fieldsOf ps = [].
Proof.
  induction ps as [|p ps IH]; intros Hno; [reflexivity|].
  destruct p as [w|c].
  - simpl. apply IH. intros c Hin. apply (Hno c). now right.
  - exfalso. apply (Hno c). now left.
Qed.

Lemma no_byte_trimLeft_nil (ps : list Go.piece) :
  (forall c, ~ In (Go.Byte c) ps) -> Go.trimLeft ps = [].
Proof.
  induction ps as [|p ps IH]; intros Hno; [reflexivity|].
  destruct p as [w|c].
  - simpl. apply IH. intros c Hin. apply (Hno c). now right.
  - exfalso. apply (Hno c). now left.
Qed.

(** A query is blank for [TrimSpace] exactly when [Fields] finds no
    request in it. *)
Lemma Fields_nil_iff_blank (s : string) :
  Go.Fields s = [] <-> Go.TrimSpace s = EmptyString.
Proof.
  unfold Go.Fields, Go.TrimSpace. split; intros H.
  - rewrite (no_byte_trimLeft_nil _ (fieldsOf_nil_no_byte _ H)). reflexivity.
  - apply no_byte_fieldsOf_nil. intros c Hin.
    apply (unpieces_byte c (Go.trimRight (Go.trimLeft (Go.pieces s)))); [|exact H].
    now apply trimRight_keeps, trimLeft_keeps.
Qed.

(** ** [filterEmptyString] and the detail lines *)

Lemma filterEmptyString_from (arr acc : list string) :
  fold_left
    (fun result val =>
       if String.eqb val EmptyString then result else (result ++ [val])%list)
    arr acc
  = (acc ++ List.filter nonEmpty arr)%list.
Proof.
  revert acc. induction arr as [|val arr IH]; intros acc; simpl.
  - now rewrite app_nil_r.
  - rewrite IH. unfold nonEmpty at 2.
    destruct (String.eqb val EmptyString); simpl; [reflexivity|].
    now rewrite <- app_assoc.
Qed.

Lemma filterEmptyString_filter (arr : list string) :
  filterEmptyString arr = List.filter nonEmpty arr.
Proof. unfold filterEmptyString. now rewrite filterEmptyString_from. Qed.

Lemma Sprintf_plus_d_nonempty (v : Z) : Go.Sprintf_plus_d v <> EmptyString.
Proof.
  unfold Go.Sprintf_plus_d. destruct v as [|p|p]; simpl; discriminate.
Qed.

Lemma detailLine_nonempty (tr : string * rollResult) :
  detailLine tr <> EmptyString.
Proof.
  unfold detailLine. destruct (rollType tr.2).
  - change (tr.1 +:+ ": " +:+ rollsText (results tr.2))
      with (tr.1 +:+ String ":" (" " +:+ rollsText (results tr.2))).
    apply TrimSpace_colon.
  - apply Sprintf_plus_d_nonempty.
Qed.

Lemma nonEmpty_detailLine (tr : string * rollResult) :
  nonEmpty (detailLine tr) = true.
Proof.
  unfold nonEmpty. rewrite eqb_empty_false; [reflexivity|].
  apply detailLine_nonempty.
Qed.

(** ** The loop against the contract *)

Lemma fold_add_wrap (rolls : list Z) :
  forall x : Z,
    fold_left Go.add rolls (Go.wrap x) = Go.wrap (x + sumZ rolls).
Proof.
  induction rolls as [|r rolls IH]; intros x; simpl.
  - f_equal. lia.
  - unfold Go.add at 2. rewrite wrap_add_l, IH. f_equal. lia.
Qed.

Lemma insert_at_length {A : Type} (pre : list A) (x y : A) (rest : list A) :
  <[length pre := x]> (pre ++ y :: rest)%list = (pre ++ x :: rest)%list.
Proof. induction pre as [|z pre IH]; simpl; [reflexivity | now rewrite IH]. Qed.

Section Refinement.

Context {Rng : Type} {error : Type} (Error : error -> string).
Context (rollDice : string -> Rng -> (rollResult + error) * Rng).
Context (GetUser : string -> User + AppError).
Context (diceBotID : string).

Lemma addRolls_eq (rolls : list Z) :
  forall (d : string) (s : Z),
    addRolls d s rolls = (d +:+ rollsText rolls, fold_left Go.add rolls s).
Proof.
  unfold addRolls.
  induction rolls as [|r rolls IH]; intros d s; simpl.
  - now rewrite append_nil_r.
  - rewrite IH. f_equal. now rewrite !append_assoc.
Qed.

Lemma rollLoop_evalTokens (tokens : list string) :
  forall (i : nat) (st : loopState) (g : Rng) (pre : list string) (s0 n0 : Z),
    sum st = Go.wrap s0 ->
    singleResultCount st = Go.wrap n0 ->
    formattedRollDetails st
      = (pre ++ replicate (length tokens) EmptyString)%list ->
    length pre = i ->
    match evalTokens rollDice tokens g with
    | (inr (token, err), g') =>
        rollLoop Error rollDice i tokens st g
          = (inr (invalidRequestError (Error err)), g')
    | (inl rs, g') =>
        exists st',
          rollLoop Error rollDice i tokens st g = (inl st', g')
          /\ sum st' = Go.wrap (s0 + total rs)
          /\ singleResultCount st' = Go.wrap (n0 + diceRolled rs)
          /\ formattedRollDetails st' = (pre ++ slots tokens rs)%list
    end.
Proof.
  induction tokens as [|token rest IH]; intros i st g pre s0 n0 Hs Hn Hd Hi.
  - simpl. exists st. repeat split.
    + rewrite Hs. f_equal. unfold total. simpl. lia.
    + rewrite Hn. f_equal. unfold diceRolled. simpl. lia.
    + exact Hd.
  - simpl evalTokens. simpl rollLoop. unfold loopBody.
    simpl in Hd.
    destruct (String.eqb token "sum") eqn:Hsum.
    + specialize (IH (S i) st g (pre ++ [EmptyString])%list s0 n0 Hs Hn).
      rewrite <- app_assoc in IH. specialize (IH Hd).
      rewrite length_app in IH. simpl in IH.
      specialize (IH ltac:(lia)).
      destruct (evalTokens rollDice rest g) as [[rs|[tok err]] g']; [|exact IH].
      destruct IH as (st' & Hrun & Hs' & Hn' & Hd').
      exists st'. repeat split; try assumption.
      rewrite Hd'. simpl. rewrite Hsum. now rewrite <- app_assoc.
    + destruct (rollDice token g) as [[r|err] g1]; [|reflexivity].
      destruct (rollType r) eqn:Hkind.
      * rewrite addRolls_eq.
        match goal with
        | |- context [rollLoop _ _ _ _ ?st1 _] => set (st1' := st1)
        end.
        specialize (IH (S i) st1' g1
                      (pre ++ [detailLine (token, r)])%list
                      (s0 + contribution r) (n0 + diceOf r)).
        assert (Hs1 : sum st1' = Go.wrap (s0 + contribution r)).
        { subst st1'. simpl. rewrite Hs, fold_add_wrap.
          unfold contribution. now rewrite Hkind. }
        assert (Hn1 : singleResultCount st1' = Go.wrap (n0 + diceOf r)).
        { subst st1'. simpl. rewrite Hn. unfold Go.add.
          rewrite wrap_add_l. unfold diceOf. now rewrite Hkind. }
        assert (Hd1 : formattedRollDetails st1'
                      = ((pre ++ [detailLine (token, r)])
                           ++ replicate (length rest) EmptyString)%list).
        { subst st1'. simpl. rewrite Hd.
          rewrite <- Hi, insert_at_length, <- app_assoc. simpl.
          unfold detailLine. simpl.
          now rewrite Hkind, ?append_assoc. }
        specialize (IH Hs1 Hn1 Hd1).
        rewrite length_app in IH. simpl in IH.
        specialize (IH ltac:(lia)).
        destruct (evalTokens rollDice rest g1) as [[rs|[tok err]] g'];
          [|exact IH].
        destruct IH as (st' & Hrun & Hs' & Hn' & Hd').
        exists st'. repeat split; try assumption.
        -- rewrite Hs'. f_equal. unfold total. simpl. lia.
        -- rewrite Hn'. f_equal. unfold diceRolled. simpl. lia.
        -- rewrite Hd'. simpl. rewrite Hsum. now rewrite <- app_assoc.
      * match goal with
        | |- context [rollLoop _ _ _ _ ?st1 _] => set (st1' := st1)
        end.
        specialize (IH (S i) st1' g1
                      (pre ++ [detailLine (token, r)])%list
                      (s0 + contribution r) (n0 + diceOf r)).
        assert (Hs1 : sum st1' = Go.wrap (s0 + contribution r)).
        { subst st1'. simpl. rewrite Hs. unfold Go.add.
          rewrite wrap_add_l. unfold contribution. now rewrite Hkind. }
        assert (Hn1 : singleResultCount st1' = Go.wrap (n0 + diceOf r)).
        { subst st1'. simpl. rewrite Hn. unfold diceOf. rewrite Hkind.
          f_equal. lia. }
        assert (Hd1 : formattedRollDetails st1'
                      = ((pre ++ [detailLine (token, r)])
                           ++ replicate (length rest) EmptyString)%list).
        { subst st1'. simpl. rewrite Hd.
          rewrite <- Hi, insert_at_length, <- app_assoc. simpl.
          unfold detailLine. simpl.
          now rewrite Hkind, ?append_assoc. }
        specialize (IH Hs1 Hn1 Hd1).
        rewrite length_app in IH. simpl in IH.
        specialize (IH ltac:(lia)).
        destruct (evalTokens rollDice rest g1) as [[rs|[tok err]] g'];
          [|exact IH].
        destruct IH as (st' & Hrun & Hs' & Hn' & Hd').
        exists st'. repeat split; try assumption.
        -- rewrite Hs'. f_equal. unfold total. simpl. lia.
        -- rewrite Hn'. f_equal. unfold diceRolled. simpl. lia.
        -- rewrite Hd'. simpl. rewrite Hsum. now rewrite <- app_assoc.
Qed.

End Refinement.

(** ** The requests behind the results *)

Section Requests.

Context {Rng : Type} {error : Type}.
Context (rollDice : string -> Rng -> (rollResult + error) * Rng).

Lemma evalTokens_requests (tokens : list string) :
  forall (g g' : Rng) (rs : list (string * rollResult)),
    evalTokens rollDice tokens g = (inl rs, g') ->
    map fst rs = List.filter notSum tokens.
Proof.
  induction tokens as [|token rest IH]; intros g g' rs Hev; simpl in Hev.
  - now inversion Hev.
  - simpl. unfold notSum at 1.
    destruct (String.eqb token "sum"); simpl; [now apply (IH g g')|].
    destruct (rollDice token g) as [[r|err] g1]; [|discriminate].
    destruct (evalTokens rollDice rest g1) as [[rs1|e] g2] eqn:Hrest;
      [|discriminate].
    inversion Hev; subst. simpl. f_equal. now apply (IH g1 g').
Qed.

(** The keyword [sum] changes nothing: not the results, not the random
    source. *)
Lemma evalTokens_skip_sum (tokens : list string) :
  forall g : Rng,
    evalTokens rollDice (List.filter notSum tokens) g
    = evalTokens rollDice tokens g.
Proof.
  induction tokens as [|token rest IH]; intros g; simpl; [reflexivity|].
  unfold notSum at 1.
  destruct (String.eqb token "sum") eqn:Hsum; simpl; [apply IH|].
  rewrite Hsum.
  destruct (rollDice token g) as [[r|err] g1]; [|reflexivity].
  now rewrite IH.
Qed.

(** A failed evaluation stopped at its first request that [rollDice]
    refused, after rolling the requests before it. *)
Lemma evalTokens_first_failure (tokens : list string) :
  forall (g g2 : Rng) (token : string) (err : error),
    evalTokens rollDice tokens g = (inr (token, err), g2) ->
    exists (before rest : list string) (rs : list (string * rollResult))
           (g1 : Rng),
      tokens = (before ++ token :: rest)%list
      /\ token <> "sum"
      /\ evalTokens rollDice before g = (inl rs, g1)
      /\ rollDice token g1 = (inr err, g2).
Proof.
  induction tokens as [|t rest IH]; intros g g2 token err Hev;
    simpl in Hev; [discriminate|].
  destruct (String.eqb t "sum") eqn:Hsum.
  - destruct (IH _ _ _ _ Hev) as (before & rest' & rs & g1 & -> & Hne & Hb & Hr).
    exists (t :: before), rest', rs, g1. repeat split; try assumption.
    simpl. now rewrite Hsum.
  - destruct (rollDice t g) as [[r|e] g1] eqn:Hroll.
    + destruct (evalTokens rollDice rest g1) as [[rs1|[t' e']] g3] eqn:Hrest;
        [discriminate|].
      inversion Hev; subst.
      destruct (IH _ _ _ _ Hrest)
        as (before & rest' & rs & g1' & -> & Hne & Hb & Hr).
      exists (t :: before), rest', ((t, r) :: rs), g1'.
      repeat split; try assumption.
      simpl. now rewrite Hsum, Hroll, Hb.
    + inversion Hev; subst.
      exists [], rest, [], g. repeat split; try assumption.
      now apply String.eqb_neq.
Qed.

(** A request that [rollDice] refuses whatever the random source makes
    the evaluation fail. *)
Lemma evalTokens_refused (tokens : list string) (token : string) :
  In token tokens ->
  token <> "sum" ->
  (forall g, exists err g', rollDice token g = (inr err, g')) ->
  forall g, exists t err g', evalTokens rollDice tokens g = (inr (t, err), g').
Proof.
  intros Hin Hne Hbad.
  induction tokens as [|t rest IH]; intros g; [destruct Hin|].
  simpl. destruct (String.eqb t "sum") eqn:Hsum.
  - destruct Hin as [-> | Hin]; [now apply String.eqb_eq in Hsum|].
    now apply IH.
  - destruct (rollDice t g) as [[r|e] g1] eqn:Hroll; [|now eauto].
    destruct Hin as [-> | Hin].
    + destruct (Hbad g) as (e & g' & He). congruence.
    + destruct (IH Hin g1) as (t' & e' & g' & ->). eauto.
Qed.

(** A query made of one request. *)
Lemma Evaluate_single (token : string) (g g' : Rng) (r : rollResult) :
  Go.TrimSpace token <> EmptyString ->
  Go.Fields token = [token] ->
  token <> "sum" ->
  rollDice token g = (inl r, g') ->
  Evaluate rollDice token g = (inl ([(token, r)], total [(token, r)]), g').
Proof.
  intros Hblank HF Hsum Hroll. unfold Evaluate.
  rewrite (eqb_empty_false _ Hblank), HF.
  apply String.eqb_neq in Hsum. rewrite Hsum. simpl.
  now rewrite Hsum, Hroll.
Qed.

End Requests.

Lemma slots_filter (tokens : list string) :
  forall rs : list (string * rollResult),
    map fst rs = List.filter notSum tokens ->
    List.filter nonEmpty (slots tokens rs) = map detailLine rs.
Proof.
  induction tokens as [|token rest IH]; intros rs Hrs; simpl in *.
  - now destruct rs.
  - unfold notSum in Hrs at 1.
    destruct (String.eqb token "sum"); simpl in *; [now apply IH|].
    destruct rs as [|tr rs]; [discriminate|].
    simpl in *. rewrite nonEmpty_detailLine. f_equal. apply IH. congruence.
Qed.

(** ** The default request *)

Lemma defaultQuery_blank (query : string) :
  Go.TrimSpace query = EmptyString -> defaultQuery query = "100".
Proof. intros H. unfold defaultQuery. now rewrite H. Qed.

Lemma defaultQuery_nonblank (query : string) :
  Go.TrimSpace query <> EmptyString -> defaultQuery query = query.
Proof.
  intros H. unfold defaultQuery. now rewrite (eqb_empty_false _ H).
Qed.

(** After the default is put in, there is always a request: the test
    [len(rollRequests) == 0] never fires. *)
Lemma Fields_defaultQuery (query : string) :
  Go.Fields (defaultQuery query) <> [].
Proof.
  unfold defaultQuery.
  destruct (String.eqb (Go.TrimSpace query) EmptyString) eqn:Hb.
  - discriminate.
  - intros HF. apply Fields_nil_iff_blank in HF.
    apply String.eqb_neq in Hb. contradiction.
Qed.

Lemma defaultQuery_sum (query : string) :
  defaultQuery query = "sum" <-> query = "sum".
Proof.
  unfold defaultQuery. split.
  - destruct (String.eqb (Go.TrimSpace query) EmptyString);
      [discriminate | auto].
  - intros ->. reflexivity.
Qed.

(** ** [generateDicePost] against [Evaluate] *)

Section Engine.

Context {Rng : Type} {error : Type} (Error : error -> string).
Context (rollDice : string -> Rng -> (rollResult + error) * Rng).
Context (GetUser : string -> User + AppError).
Context (diceBotID : string).

Local Abbreviation post := (generateDicePost Error rollDice GetUser diceBotID).
Local Abbreviation loop := (rollLoop Error rollDice).

(** The run of the loop on the requests of a query. *)
Lemma loop_of_query (tokens : list string) (g : Rng) :
  match evalTokens rollDice tokens g with
  | (inr (token, err), g') =>
      loop 0%nat tokens (initState (length tokens)) g
        = (inr (invalidRequestError (Error err)), g')
  | (inl rs, g') =>
      exists st,
        loop 0%nat tokens (initState (length tokens)) g = (inl st, g')
        /\ sum st = Go.wrap (total rs)
        /\ singleResultCount st = Go.wrap (diceRolled rs)
        /\ formattedRollDetails st = slots tokens rs
  end.
Proof.
  exact (rollLoop_evalTokens Error rollDice tokens 0%nat
           (initState (length tokens)) g [] 0 0
           eq_refl eq_refl eq_refl eq_refl).
Qed.

(** What [generateDicePost] returns, read off [Evaluate]. *)
Lemma generateDicePost_Evaluate
  (query userID channelID rootID : string) (g : Rng) (user : User) :
  GetUser userID = inl user ->
  post query userID channelID rootID g
  = match Evaluate rollDice query g with
    | (inr EmptyRequest, g') =>
        (inr (appError emptyRequestMessage None), g')
    | (inr (InvalidRequest token err), g') =>
        (inr (invalidRequestError (Error err)), g')
    | (inl (rs, _), g') =>
        (inl {| UserId := diceBotID;
                ChannelId := channelID;
                RootId := rootID;
                Message :=
                  summary (displayNameOf user) (defaultQuery query)
                    (Go.wrap (total rs)) (Go.wrap (diceRolled rs))
                    (map detailLine rs) |}, g')
    end.
Proof.
  intros Huser. unfold generateDicePost, Evaluate. rewrite Huser.
  fold (defaultQuery query).
  destruct (Go.Fields (defaultQuery query)) as [|t ts] eqn:HF;
    [reflexivity|].
  simpl orb.
  destruct (String.eqb (defaultQuery query) "sum"); [reflexivity|].
  pose proof (loop_of_query (t :: ts) g) as Hloop.
  pose proof (evalTokens_requests rollDice (t :: ts) g) as Hreq.
  destruct (evalTokens rollDice (t :: ts) g) as [[rs|[token err]] g'].
  - destruct Hloop as (st & -> & Hs & Hn & Hd).
    rewrite Hs, Hn. unfold summary, breakdown, header, boldSum.
    rewrite Hd, filterEmptyString_filter.
    rewrite (slots_filter _ _ (Hreq g' rs eq_refl)).
    reflexivity.
  - now rewrite Hloop.
Qed.

(** A post comes from a successful evaluation, and from a run of the
    loop that ended with the total, the count of dice and the details
    of that evaluation. *)
Lemma generateDicePost_post
  (query userID channelID rootID : string) (g g' : Rng) (user : User)
  (p : Post) :
  GetUser userID = inl user ->
  post query userID channelID rootID g = (inl p, g') ->
  exists rs st,
    Evaluate rollDice query g = (inl (rs, total rs), g')
    /\ evalTokens rollDice (Go.Fields (defaultQuery query)) g = (inl rs, g')
    /\ loop 0%nat (Go.Fields (defaultQuery query))
          (initState (length (Go.Fields (defaultQuery query)))) g
        = (inl st, g')
    /\ sum st = Go.wrap (total rs)
    /\ singleResultCount st = Go.wrap (diceRolled rs)
    /\ formattedRollDetails st = slots (Go.Fields (defaultQuery query)) rs
    /\ Message p
       = summary (displayNameOf user) (defaultQuery query)
           (Go.wrap (total rs)) (Go.wrap (diceRolled rs))
           (map detailLine rs).
Proof.
  intros Huser Hpost.
  rewrite (generateDicePost_Evaluate _ _ _ _ _ _ Huser) in Hpost.
  pose proof (Fields_defaultQuery query) as HF.
  pose proof (loop_of_query (Go.Fields (defaultQuery query)) g) as Hloop.
  unfold Evaluate in *. fold (defaultQuery query) in *.
  destruct (Go.Fields (defaultQuery query)) as [|t ts]; [contradiction|].
  destruct (String.eqb (defaultQuery query) "sum"); [discriminate|].
  destruct (evalTokens rollDice (t :: ts) g) as [[rs|[token err]] g1];
    [|discriminate].
  destruct Hloop as (st & Hrun & Hs & Hn & Hd).
  inversion Hpost; subst. exists rs, st. auto 10.
Qed.

Lemma diceRolled_nonneg (rs : list (string * rollResult)) :
  0 <= diceRolled rs.
Proof.
  unfold diceRolled. induction rs as [|tr rs IH]; simpl; [lia|].
  unfold diceOf at 1. destruct (rollType tr.2); lia.
Qed.

End Engine.

(** ** The claims on [generateDicePost] *)

Section Claims.

Context {Rng : Type} {error : Type} (Error : error -> string).
Context (rollDice : string -> Rng -> (rollResult + error) * Rng).
Context (GetUser : string -> User + AppError).
Context (diceBotID : string).

Local Abbreviation post := (generateDicePost Error rollDice GetUser diceBotID).
Local Abbreviation loop := (rollLoop Error rollDice).

(** C1, as amended.  When a query is evaluated with success, the total
    the loop leaves in [sum], which is the number shown in bold, is the
    sum of every roll of every numeric result and of every modifier
    value, reduced to the 64-bit [int] of Go; it is that sum exactly
    whenever the sum fits in an [int]. *)
Theorem total_is_wrapped_sum
  (query userID channelID rootID : string) (g g' : Rng) (user : User)
  (p : Post) :
  GetUser userID = inl user ->
  post query userID channelID rootID g = (inl p, g') ->
  exists rs st,
    Evaluate rollDice query g = (inl (rs, total rs), g')
    /\ loop 0%nat (Go.Fields (defaultQuery query))
          (initState (length (Go.Fields (defaultQuery query)))) g
        = (inl st, g')
    /\ sum st = Go.wrap (total rs)
    /\ (Go.isInt (total rs) -> sum st = total rs)
    /\ Message p
       = summary (displayNameOf user) (defaultQuery query) (sum st)
           (singleResultCount st) (filterEmptyString (formattedRollDetails st)).
Proof.
  intros Huser Hpost.
  destruct (generateDicePost_post _ _ _ _ _ _ _ _ _ _ _ _ Huser Hpost)
    as (rs & st & Hev & Htok & Hrun & Hs & Hn & Hd & Hm).
  exists rs, st. repeat split; try assumption.
  - intros Hint. rewrite Hs. now apply wrap_id.
  - rewrite Hm, Hs, Hn, Hd, filterEmptyString_filter.
    now rewrite (slots_filter _ _ (evalTokens_requests _ _ _ _ _ Htok)).
Qed.

(** C2, as amended.  When a query holds a request that [rollDice]
    refuses, the evaluation fails: no post and no result is returned,
    and the error is made of the message of [rollDice] for the first
    request it refused, followed by the pointer to the help.  The
    requests before that one have been rolled, and the random source is
    left as they and the refused request left it. *)
Theorem invalid_request_aborts
  (query userID channelID rootID : string) (g : Rng) (user : User)
  (token : string) :
  GetUser userID = inl user ->
  In token (Go.Fields query) ->
  token <> "sum" ->
  (forall g0, exists err g1, rollDice token g0 = (inr err, g1)) ->
  exists (before : list string) (first : string) (rest : list string)
         (rs : list (string * rollResult)) (err : error) (g1 g2 : Rng),
    Go.Fields query = (before ++ first :: rest)%list
    /\ first <> "sum"
    /\ evalTokens rollDice before g = (inl rs, g1)
    /\ rollDice first g1 = (inr err, g2)
    /\ Evaluate rollDice query g = (inr (InvalidRequest first err), g2)
    /\ post query userID channelID rootID g
       = (inr (appError (Error err +:+ helpSuffix) (Some (Error err))), g2).
Proof.
  intros Huser Hin Hne Hbad.
  assert (Hnb : Go.TrimSpace query <> EmptyString).
  { intros Hb. apply Fields_nil_iff_blank in Hb. rewrite Hb in Hin.
    destruct Hin. }
  assert (Hq : query <> "sum").
  { intros ->. destruct Hin as [<- | []]. now apply Hne. }
  destruct (evalTokens_refused rollDice _ _ Hin Hne Hbad g)
    as (first & err & g2 & Hev).
  destruct (evalTokens_first_failure rollDice _ _ _ _ _ Hev)
    as (before & rest & rs & g1 & HF & Hfirst & Hb & Hr).
  assert (HE : Evaluate rollDice query g
               = (inr (InvalidRequest first err), g2)).
  { unfold Evaluate. fold (defaultQuery query).
    rewrite (defaultQuery_nonblank _ Hnb).
    apply String.eqb_neq in Hq. rewrite Hq, Hev.
    destruct (Go.Fields query); [destruct Hin | reflexivity]. }
  exists before, first, rest, rs, err, g1, g2.
  repeat split; try assumption.
  now rewrite (generateDicePost_Evaluate _ _ _ _ _ _ _ _ _ _ Huser), HE.
Qed.

(** C3, as amended.  The evaluation fails with the error of the empty
    request exactly when the query is the keyword [sum] alone, and then
    the random source is untouched.  (A blank query is given the
    default request, and the list of requests is never empty.) *)
Theorem empty_request_iff
  (query userID channelID rootID : string) (g : Rng) (user : User) :
  GetUser userID = inl user ->
  ((post query userID channelID rootID g).1
     = inr (appError emptyRequestMessage None) <-> query = "sum")
  /\ ((Evaluate rollDice query g).1 = inr EmptyRequest <-> query = "sum")
  /\ (query = "sum" -> (post query userID channelID rootID g).2 = g).
Proof.
  intros Huser.
  rewrite (generateDicePost_Evaluate _ _ _ _ _ _ _ _ _ _ Huser).
  pose proof (Fields_defaultQuery query) as HF.
  pose proof (defaultQuery_sum query) as Hsum.
  unfold Evaluate. fold (defaultQuery query).
  destruct (Go.Fields (defaultQuery query)) as [|t ts]; [contradiction|].
  destruct (String.eqb (defaultQuery query) "sum") eqn:Hq.
  - apply String.eqb_eq in Hq. apply Hsum in Hq. simpl. tauto.
  - apply String.eqb_neq in Hq.
    assert (Hns : query <> "sum") by (intros H; apply Hq, Hsum, H).
    destruct (evalTokens rollDice (t :: ts) g) as [[rs|[token err]] g1];
      simpl; repeat split; try discriminate; try contradiction.
    intros H. unfold invalidRequestError, appError in H.
    injection H as Hid Hdet. rewrite Hdet in Hid. discriminate.
Qed.

(** C4.  A query that is empty once its white space is removed is
    answered as the query [100] is, from the same state of the random
    source: the same post or the same error, and the same state of the
    random source afterwards. *)
Theorem blank_query_is_100
  (query userID channelID rootID : string) (g : Rng) :
  Go.TrimSpace query = EmptyString ->
  post query userID channelID rootID g = post "100" userID channelID rootID g
  /\ Evaluate rollDice query g = Evaluate rollDice "100" g.
Proof.
  intros Hblank. unfold generateDicePost, Evaluate.
  fold (defaultQuery query). fold (defaultQuery "100").
  now rewrite (defaultQuery_blank _ Hblank).
Qed.

(** C5, as amended.  The breakdown is appended to the message exactly
    when more than one die was rolled over the whole query, counted
    over the numeric results (a count that fits in an [int]).  The
    number of requests plays no part: several requests that roll one
    die or none between them show the total alone. *)
Theorem breakdown_iff_several_dice
  (query userID channelID rootID : string) (g g' : Rng) (user : User)
  (p : Post) :
  GetUser userID = inl user ->
  post query userID channelID rootID g = (inl p, g') ->
  exists rs,
    Evaluate rollDice query g = (inl (rs, total rs), g')
    /\ (diceRolled rs <= Go.maxInt ->
        let text :=
          header (displayNameOf user) (defaultQuery query)
            +:+ boldSum (Go.wrap (total rs)) in
        (1 < diceRolled rs ->
         Message p
         = text +:+ Go.newline +:+ "- "
             +:+ Go.Join (map detailLine rs) (Go.newline +:+ "- "))
        /\ (diceRolled rs <= 1 -> Message p = text)
        /\ (Message p <> text <-> 1 < diceRolled rs)).
Proof.
  intros Huser Hpost.
  destruct (generateDicePost_post _ _ _ _ _ _ _ _ _ _ _ _ Huser Hpost)
    as (rs & st & Hev & Htok & Hrun & Hs & Hn & Hd & Hm).
  exists rs. split; [assumption|]. intros Hmax text.
  pose proof (diceRolled_nonneg rs) as H0.
  assert (Hw : Go.wrap (diceRolled rs) = diceRolled rs).
  { apply wrap_id. unfold Go.isInt, Go.minInt. lia. }
  rewrite Hm. unfold summary. rewrite Hw.
  fold (header (displayNameOf user) (defaultQuery query)).
  fold (boldSum (Go.wrap (total rs))). fold text.
  destruct (Z.ltb_spec 1 (diceRolled rs)) as [Hlt | Hle].
  - split; [reflexivity|]. split; [lia|]. split; [intros _; exact Hlt|].
    intros _ Heq. rewrite <- (append_nil_r text) in Heq at 2.
    apply append_cancel_l in Heq. discriminate.
  - split; [lia|]. split; [reflexivity|]. split; [|lia].
    intros Hneq. now contradiction Hneq.
Qed.

(** C6, as amended.  On success the message is one string: the header
    naming who rolls and what, then in bold the total the loop leaves in
    [sum], which is the sum of the results reduced to an [int], then
    nothing when at most one die was rolled, and otherwise a new line, a
    dash and the detail lines of the results, in their order, joined by
    new line and dash.  The header comes before the total in bold and
    nothing comes after the lines. *)
Theorem message_format
  (query userID channelID rootID : string) (g g' : Rng) (user : User)
  (p : Post) :
  GetUser userID = inl user ->
  post query userID channelID rootID g = (inl p, g') ->
  exists rs st,
    Evaluate rollDice query g = (inl (rs, total rs), g')
    /\ loop 0%nat (Go.Fields (defaultQuery query))
          (initState (length (Go.Fields (defaultQuery query)))) g
        = (inl st, g')
    /\ sum st = Go.wrap (total rs)
    /\ singleResultCount st = Go.wrap (diceRolled rs)
    /\ filterEmptyString (formattedRollDetails st) = map detailLine rs
    /\ Message p
       = "**" +:+ displayNameOf user +:+ "** rolls *" +:+ defaultQuery query
           +:+ "* = " +:+ "**" +:+ Go.Sprintf_d (sum st) +:+ "**"
           +:+ (if (1 <? singleResultCount st)%Z
                then Go.newline +:+ "- "
                       +:+ Go.Join (map detailLine rs) (Go.newline +:+ "- ")
                else EmptyString).
Proof.
  intros Huser Hpost.
  destruct (generateDicePost_post _ _ _ _ _ _ _ _ _ _ _ _ Huser Hpost)
    as (rs & st & Hev & Htok & Hrun & Hs & Hn & Hd & Hm).
  exists rs, st. repeat split; try assumption.
  - rewrite Hd, filterEmptyString_filter.
    now rewrite (slots_filter _ _ (evalTokens_requests _ _ _ _ _ Htok)).
  - rewrite Hm, Hs, Hn. unfold summary.
    destruct (1 <? Go.wrap (diceRolled rs))%Z.
    + now rewrite !append_assoc.
    + now rewrite !append_assoc, append_nil_r.
Qed.

(** C9.  The results and the lines of the breakdown follow the requests
    of the query in their order: the results are those of the requests
    other than [sum], one after the other as they stand in the query;
    the slice of details holds at each index the detail of the request
    at that index; the lines kept are the details of the results in that
    same order; and the message shows, under the total, exactly those
    lines in that order, whenever more than one die was rolled. *)
Theorem breakdown_in_request_order
  (query userID channelID rootID : string) (g g' : Rng) (user : User)
  (p : Post) :
  GetUser userID = inl user ->
  post query userID channelID rootID g = (inl p, g') ->
  exists rs st,
    Evaluate rollDice query g = (inl (rs, total rs), g')
    /\ loop 0%nat (Go.Fields (defaultQuery query))
          (initState (length (Go.Fields (defaultQuery query)))) g
        = (inl st, g')
    /\ map fst rs = List.filter notSum (Go.Fields (defaultQuery query))
    /\ formattedRollDetails st = slots (Go.Fields (defaultQuery query)) rs
    /\ filterEmptyString (formattedRollDetails st) = map detailLine rs
    /\ singleResultCount st = Go.wrap (diceRolled rs)
    /\ Message p
       = header (displayNameOf user) (defaultQuery query)
           +:+ boldSum (sum st)
           +:+ (if (1 <? singleResultCount st)%Z
                then Go.newline +:+ "- "
                       +:+ Go.Join (map detailLine rs) (Go.newline +:+ "- ")
                else EmptyString).
Proof.
  intros Huser Hpost.
  destruct (generateDicePost_post _ _ _ _ _ _ _ _ _ _ _ _ Huser Hpost)
    as (rs & st & Hev & Htok & Hrun & Hs & Hn & Hd & Hm).
  pose proof (evalTokens_requests _ _ _ _ _ Htok) as Hreq.
  exists rs, st. repeat split; try assumption.
  - rewrite Hd, filterEmptyString_filter. now apply slots_filter.
  - rewrite Hm, Hs, Hn. unfold summary, header, boldSum.
    destruct (1 <? Go.wrap (diceRolled rs))%Z.
    + now rewrite !append_assoc.
    + now rewrite !append_assoc, append_nil_r.
Qed.

(** C10.  In a query that mixes the keyword [sum] with requests, the
    keyword adds nothing to the total and gives no line: the results,
    the total and the random source are those of the requests with
    every [sum] taken out, there is one line for each of those requests,
    and no line that is joined into the breakdown is empty. *)
Theorem sum_keyword_is_silent
  (query userID channelID rootID : string) (g g' : Rng) (user : User)
  (p : Post) :
  GetUser userID = inl user ->
  post query userID channelID rootID g = (inl p, g') ->
  exists rs st,
    evalTokens rollDice
      (List.filter notSum (Go.Fields (defaultQuery query))) g
    = (inl rs, g')
    /\ loop 0%nat (Go.Fields (defaultQuery query))
          (initState (length (Go.Fields (defaultQuery query)))) g
        = (inl st, g')
    /\ sum st = Go.wrap (total rs)
    /\ length (filterEmptyString (formattedRollDetails st))
       = length (List.filter notSum (Go.Fields (defaultQuery query)))
    /\ Forall (fun line => line <> EmptyString)
         (filterEmptyString (formattedRollDetails st))
    /\ Message p
       = summary (displayNameOf user) (defaultQuery query) (sum st)
           (singleResultCount st)
           (filterEmptyString (formattedRollDetails st)).
Proof.
  intros Huser Hpost.
  destruct (generateDicePost_post _ _ _ _ _ _ _ _ _ _ _ _ Huser Hpost)
    as (rs & st & Hev & Htok & Hrun & Hs & Hn & Hd & Hm).
  pose proof (evalTokens_requests _ _ _ _ _ Htok) as Hreq.
  assert (Hlines : filterEmptyString (formattedRollDetails st)
                   = map detailLine rs).
  { rewrite Hd, filterEmptyString_filter. now apply slots_filter. }
  exists rs, st. rewrite Hlines. repeat split; try assumption.
  - now rewrite evalTokens_skip_sum.
  - rewrite <- Hreq. now rewrite !length_map.
  - clear. induction rs as [|tr rs IH]; simpl; constructor;
      [apply detailLine_nonempty | exact IH].
  - now rewrite Hm, Hs, Hn.
Qed.

End Claims.

(** ** [rollDice] as the specification has it *)








Lemma rollDice_invalid {Rng : Type} {source : Spec.RandomSource Rng}
  (token : string) (g : Rng) :
  Spec.classify token = None ->
  Spec.rollDice token g = (inr (Spec.Invalid token), g).
Proof. intros Hc. unfold Spec.rollDice. now rewrite Hc. Qed.

Lemma rollDice_dice {Rng : Type} {source : Spec.RandomSource Rng}
  (token : string) (count sides modif : Z) (g : Rng) :
  Spec.classify token = Some (Spec.Dice count sides modif) ->
  Spec.rollDice token g
  = (inl {| rollType := numeric;
            results := (Spec.rollMany (Z.to_nat count) sides modif g).1;
            sumModifier := modif |},
     (Spec.rollMany (Z.to_nat count) sides modif g).2).
Proof.
  intros Hc. unfold Spec.rollDice. rewrite Hc.
  now destruct (Spec.rollMany (Z.to_nat count) sides modif g).
Qed.

Section Rolls.

Context {Rng : Type} {source : Spec.RandomSource Rng}.

Lemma rollMany_length (count : nat) (sides modif : Z) :
  forall g : Rng, length (Spec.rollMany count sides modif g).1 = count.
Proof.
  induction count as [|k IH]; intros g; simpl; [reflexivity|].
  destruct (Spec.draw sides g) as [outcome g1].
  specialize (IH g1).
  destruct (Spec.rollMany k sides modif g1) as [rest g2]. simpl in *.
  now rewrite IH.
Qed.

Lemma rollMany_range (count : nat) (sides modif : Z) :
  Spec.drawInRange -> 1 <= sides ->
  forall g : Rng,
    Forall (fun e => 1 + modif <= e <= sides + modif)
      (Spec.rollMany count sides modif g).1.
Proof.
  intros Hlaw Hsides.
  induction count as [|k IH]; intros g; simpl; [constructor|].
  pose proof (Hlaw sides g Hsides) as Hd.
  destruct (Spec.draw sides g) as [outcome g1].
  specialize (IH g1).
  destruct (Spec.rollMany k sides modif g1) as [rest g2]. simpl in *.
  constructor; [lia | exact IH].
Qed.

Lemma rollMany_drawMany (count : nat) (sides modif : Z) :
  forall g : Rng,
    (Spec.rollMany count sides modif g).1
    = map (fun outcome => outcome + modif) (Spec.drawMany count sides g).
Proof.
  induction count as [|k IH]; intros g; simpl; [reflexivity|].
  destruct (Spec.draw sides g) as [outcome g1].
  specialize (IH g1).
  destruct (Spec.rollMany k sides modif g1) as [rest g2]. simpl in *.
  now rewrite IH.
Qed.


(** C8.  The modifier attached to a dice request is added to each
    outcome before it is recorded, once for every die: the [rolls] are
    the plain outcomes of the dice, each with the modifier added.  The
    evaluation of the query [5D6+3] returns one numeric result of five
    integers, each from 4 to 9. *)
Theorem modifier_applied_per_die (g : Rng) :
  Spec.drawInRange ->
  (forall token count sides modif,
      Spec.classify token = Some (Spec.Dice count sides modif) ->
      exists r g',
        Spec.rollDice token g = (inl r, g')
        /\ results r
           = map (fun outcome => outcome + modif)
               (Spec.drawMany (Z.to_nat count) sides g))
  /\ (exists r g',
        Evaluate Spec.rollDice "5D6+3" g
        = (inl ([("5D6+3", r)], total [("5D6+3", r)]), g')
        /\ rollType r = numeric
        /\ length (results r) = 5%nat
        /\ Forall (fun e => 4 <= e <= 9) (results r)).
Proof.
  intros Hlaw. split.
  - intros token count sides modif Hc.
    eexists _, _. split; [apply (rollDice_dice _ _ _ _ _ Hc)|].
    simpl. apply rollMany_drawMany.
  - eexists _, _. split.
    { apply (Evaluate_single Spec.rollDice "5D6+3"); try discriminate;
        try reflexivity.
      apply (rollDice_dice "5D6+3" 5 6 3). reflexivity. }
    split; [reflexivity|].
    split; [exact (rollMany_length 5 6 3 g)|].
    exact (rollMany_range 5 6 3 Hlaw ltac:(lia) g).
Qed.

End Rolls.

(** ** The plugin at work *)

Lemma lcg_in_range : Spec.drawInRange (source := Demo.lcg).
Proof.
  intros sides g Hsides. unfold Spec.draw, Demo.lcg. simpl.
  pose proof (Z.mod_pos_bound g sides ltac:(lia)). lia.
Qed.

(** The requests of the help text, classified. *)
Example classify_examples :
  map Spec.classify ["20"; "5D6"; "5D6+3"; "5d6-3"; "D8"; "+3"; "-5"; "abc"]
  = [Some (Spec.Dice 1 20 0); Some (Spec.Dice 5 6 0); Some (Spec.Dice 5 6 3);
     Some (Spec.Dice 5 6 (-3)); Some (Spec.Dice 1 8 0);
     Some (Spec.Modifier 3); Some (Spec.Modifier (-5)); None].
Proof. reflexivity. Qed.

Example Fields_example :
  Go.Fields (" 5" +:+ Go.newline +:+ "D8   13D20 ") = ["5"; "D8"; "13D20"].
Proof. reflexivity. Qed.

(** Three requests give three results in the order of the query, and the
    breakdown is shown. *)
Example three_requests :
  match Evaluate (Spec.rollDice (source := Demo.lcg)) "5 D8 13D20" 42 with
  | (inl (rs, _), _) => map (fun tr => (tr.1, length (results tr.2))) rs
  | (inr _, _) => []
  end
  = [("5", 1%nat); ("D8", 1%nat); ("13D20", 13%nat)]
  /\ Demo.messageOf (Demo.post "5 D8 13D20" 42)
     = "**bob** rolls *5 D8 13D20* = **144**" +:+ Go.newline
         +:+ "- 5: 3" +:+ Go.newline
         +:+ "- D8: 2" +:+ Go.newline
         +:+ "- 13D20: 1 16 15 6 9 8 7 18 9 20 3 14 13".
Proof. split; vm_compute; reflexivity. Qed.

(** A modifier written as a request of its own is added once. *)
Example separate_modifier :
  Demo.messageOf (Demo.post "5D6 +3" 42)
  = "**bob** rolls *5D6 +3* = **24**" +:+ Go.newline
      +:+ "- 5D6: 1 6 3 6 5" +:+ Go.newline +:+ "- +3".
Proof. vm_compute. reflexivity. Qed.

(** The error of the modelled [rollDice] names the request it refused,
    and a refused request draws nothing. *)
Lemma rollDice_error_names_token {Rng : Type} {source : Spec.RandomSource Rng}
  (token : string) (g g' : Rng) (err : Spec.error) :
  Spec.rollDice token g = (inr err, g') ->
  err = Spec.Invalid token /\ g' = g /\ Spec.classify token = None.
Proof.
  unfold Spec.rollDice. intros Hroll.
  destruct (Spec.classify token) as [[count sides modif|value]|].
  - destruct (Spec.rollMany (Z.to_nat count) sides modif g). discriminate.
  - discriminate.
  - inversion Hroll; subst. auto.
Qed.

Example invalid_request_abc :
  Evaluate (Spec.rollDice (source := Demo.lcg)) "abc" 42
  = (inr (InvalidRequest "abc" (Spec.Invalid "abc")), 42)
  /\ Demo.messageOf (Demo.post "abc" 42)
     = "'abc' is not a valid roll request. See `/roll help` for examples.".
Proof. split; vm_compute; reflexivity. Qed.

(** A number printed with [%d] starts with a digit or a minus sign. *)
Lemma Sprintf_d_not_b (n : Z) (s : string) : Go.Sprintf_d n <> String "b" s.
Proof.
  unfold Go.Sprintf_d. destruct n as [|q|q]; simpl; try discriminate.
  destruct (Pos.to_uint q); simpl; discriminate.
Qed.

(** *** Witnesses *)

Lemma total_is_wrapped_sum_witness :
  exists p g' rs st,
    Demo.post "5D6 +3" 42 = (inl p, g')
    /\ Evaluate (Spec.rollDice (source := Demo.lcg)) "5D6 +3" 42
       = (inl (rs, total rs), g')
    /\ sum st = Go.wrap (total rs).
Proof.
  assert (Hpost : exists p g', Demo.post "5D6 +3" 42 = (inl p, g'))
    by (vm_compute; eexists _, _; reflexivity).
  destruct Hpost as (p & g' & Hpost).
  destruct (total_is_wrapped_sum Spec.Error
              (Spec.rollDice (source := Demo.lcg)) Demo.GetUser "dicebot"
              "5D6 +3" "u1" "c1" "r1" 42 g' (mkUser EmptyString "bob") p
              eq_refl Hpost)
    as (rs & st & Hev & _ & Hs & _).
  exists p, g', rs, st. split; [exact Hpost|]. split; [exact Hev | exact Hs].
Defined.

Lemma invalid_request_aborts_witness :
  exists (first : string) (err : Spec.error) (g2 : Z),
    Evaluate (Spec.rollDice (source := Demo.lcg)) "5D6 abc" 42
    = (inr (InvalidRequest first err), g2)
    /\ Demo.post "5D6 abc" 42
       = (inr (appError (Spec.Error err +:+ helpSuffix)
                 (Some (Spec.Error err))), g2).
Proof.
  destruct (invalid_request_aborts Spec.Error
              (Spec.rollDice (source := Demo.lcg)) Demo.GetUser "dicebot"
              "5D6 abc" "u1" "c1" "r1" 42 (mkUser EmptyString "bob") "abc"
              eq_refl)
    as (before & first & rest & rs & err & g1 & g2 & _ & _ & _ & _ & HE & HP).
  - vm_compute. auto.
  - discriminate.
  - intros g0. exists (Spec.Invalid "abc"), g0. reflexivity.
  - exists first, err, g2. split; [exact HE | exact HP].
Defined.

Lemma empty_request_iff_witness :
  (Demo.post "sum" 42).1 = inr (appError emptyRequestMessage None)
  /\ (Demo.post "sum" 42).2 = 42.
Proof.
  destruct (empty_request_iff Spec.Error
              (Spec.rollDice (source := Demo.lcg)) Demo.GetUser "dicebot"
              "sum" "u1" "c1" "r1" 42 (mkUser EmptyString "bob") eq_refl)
    as ([_ Hfail] & _ & Hsame).
  split; [exact (Hfail eq_refl) | exact (Hsame eq_refl)].
Defined.

Lemma blank_query_is_100_witness :
  Go.TrimSpace (String "009" " ") = EmptyString
  /\ Demo.post (String "009" " ") 42
     = Demo.post "100" 42.
Proof.
  split; [reflexivity|].
  apply (blank_query_is_100 Spec.Error (Spec.rollDice (source := Demo.lcg))
           Demo.GetUser "dicebot" (String "009" " ") "u1" "c1" "r1" 42).
  reflexivity.
Defined.

Lemma breakdown_iff_several_dice_witness :
  exists p g' rs,
    Demo.post "2D6" 42 = (inl p, g')
    /\ Evaluate (Spec.rollDice (source := Demo.lcg)) "2D6" 42
       = (inl (rs, total rs), g')
    /\ (Message p
        <> header "bob" "2D6" +:+ boldSum (Go.wrap (total rs))
        <-> 1 < diceRolled rs).
Proof.
  assert (Hpost : exists p g', Demo.post "2D6" 42 = (inl p, g'))
    by (vm_compute; eexists _, _; reflexivity).
  destruct Hpost as (p & g' & Hpost).
  destruct (breakdown_iff_several_dice Spec.Error
              (Spec.rollDice (source := Demo.lcg)) Demo.GetUser "dicebot"
              "2D6" "u1" "c1" "r1" 42 g' (mkUser EmptyString "bob") p
              eq_refl Hpost)
    as (rs & Hev & Hshape).
  exists p, g', rs. split; [exact Hpost|]. split; [exact Hev|].
  assert (Hmax : diceRolled rs <= Go.maxInt).
  { vm_compute in Hev. injection Hev as <- _. vm_compute. discriminate. }
  exact (proj2 (proj2 (Hshape Hmax))).
Defined.

Lemma message_format_witness :
  exists p g' rs st,
    Demo.post "2D6" 42 = (inl p, g')
    /\ sum st = Go.wrap (total rs)
    /\ Message p
       = "**" +:+ "bob" +:+ "** rolls *" +:+ "2D6"
           +:+ "* = " +:+ "**" +:+ Go.Sprintf_d (sum st) +:+ "**"
           +:+ (if (1 <? singleResultCount st)%Z
                then Go.newline +:+ "- "
                       +:+ Go.Join (map detailLine rs) (Go.newline +:+ "- ")
                else EmptyString).
Proof.
  assert (Hpost : exists p g', Demo.post "2D6" 42 = (inl p, g'))
    by (vm_compute; eexists _, _; reflexivity).
  destruct Hpost as (p & g' & Hpost).
  destruct (message_format Spec.Error
              (Spec.rollDice (source := Demo.lcg)) Demo.GetUser "dicebot"
              "2D6" "u1" "c1" "r1" 42 g' (mkUser EmptyString "bob") p
              eq_refl Hpost)
    as (rs & st & _ & _ & Hs & _ & _ & Hm).
  exists p, g', rs, st. split; [exact Hpost|]. split; [exact Hs | exact Hm].
Defined.

Lemma breakdown_in_request_order_witness :
  exists p g' rs st,
    Demo.post "5 sum D8 13D20" 42 = (inl p, g')
    /\ map fst rs = ["5"; "D8"; "13D20"]
    /\ filterEmptyString (formattedRollDetails st) = map detailLine rs
    /\ Message p
       = header "bob" "5 sum D8 13D20" +:+ boldSum (sum st)
           +:+ (if (1 <? singleResultCount st)%Z
                then Go.newline +:+ "- "
                       +:+ Go.Join (map detailLine rs) (Go.newline +:+ "- ")
                else EmptyString).
Proof.
  assert (Hpost : exists p g', Demo.post "5 sum D8 13D20" 42 = (inl p, g'))
    by (vm_compute; eexists _, _; reflexivity).
  destruct Hpost as (p & g' & Hpost).
  destruct (breakdown_in_request_order Spec.Error
              (Spec.rollDice (source := Demo.lcg)) Demo.GetUser "dicebot"
              "5 sum D8 13D20" "u1" "c1" "r1" 42 g' (mkUser EmptyString "bob") p
              eq_refl Hpost)
    as (rs & st & _ & _ & Hreq & _ & Hlines & _ & Hm).
  assert (HF : List.filter notSum (Go.Fields (defaultQuery "5 sum D8 13D20"))
               = ["5"; "D8"; "13D20"]) by (vm_compute; reflexivity).
  rewrite HF in Hreq.
  exists p, g', rs, st. split; [exact Hpost|]. split; [exact Hreq|].
  split; [exact Hlines | exact Hm].
Defined.

Lemma sum_keyword_is_silent_witness :
  exists p g' rs st,
    Demo.post "sum 2d6 sum -4 sum" 42 = (inl p, g')
    /\ evalTokens (Spec.rollDice (source := Demo.lcg)) ["2d6"; "-4"] 42
       = (inl rs, g')
    /\ sum st = Go.wrap (total rs)
    /\ length (filterEmptyString (formattedRollDetails st)) = 2%nat.
Proof.
  assert (Hpost : exists p g', Demo.post "sum 2d6 sum -4 sum" 42 = (inl p, g'))
    by (vm_compute; eexists _, _; reflexivity).
  destruct Hpost as (p & g' & Hpost).
  destruct (sum_keyword_is_silent Spec.Error
              (Spec.rollDice (source := Demo.lcg)) Demo.GetUser "dicebot"
              "sum 2d6 sum -4 sum" "u1" "c1" "r1" 42 g' (mkUser EmptyString "bob") p
              eq_refl Hpost)
    as (rs & st & Hev & _ & Hs & Hlen & _).
  assert (HF : List.filter notSum
                 (Go.Fields (defaultQuery "sum 2d6 sum -4 sum"))
               = ["2d6"; "-4"]) by (vm_compute; reflexivity).
  rewrite HF in Hev, Hlen.
  exists p, g', rs, st. split; [exact Hpost|].
  split; [exact Hev|]. split; [exact Hs | exact Hlen].
Defined.


Lemma modifier_applied_per_die_witness :
  exists r g',
    Evaluate (Spec.rollDice (source := Demo.lcg)) "5D6+3" 42
    = (inl ([("5D6+3", r)], total [("5D6+3", r)]), g')
    /\ length (results r) = 5%nat
    /\ Forall (fun e => 4 <= e <= 9) (results r).
Proof.
  destruct (modifier_applied_per_die (source := Demo.lcg) 42 lcg_in_range)
    as [_ (r & g' & Hroll & _ & Hlen & Hrange)].
  exists r, g'. split; [exact Hroll|]. split; [exact Hlen | exact Hrange].
Defined.

(** *** Where the claims as first stated fail *)

(** C1 as stated fails when the sum leaves the range of [int]: two
    modifiers add up to 9223372036854775808, and the total shown is
    -9223372036854775808. *)
Lemma total_overflow_counterexample :
  let query := "+9223372036854775807 +1" in
  let rs :=
    [("+9223372036854775807", mkRollResult modifier [] 9223372036854775807);
     ("+1", mkRollResult modifier [] 1)] in
  let st :=
    mkLoopState (-9223372036854775808) 0 0 ["+9223372036854775807"; "+1"] in
  Evaluate (Spec.rollDice (source := Demo.lcg)) query 42
  = (inl (rs, 9223372036854775808), 42)
  /\ total rs = 9223372036854775808
  /\ rollLoop Spec.Error (Spec.rollDice (source := Demo.lcg)) 0
       (Go.Fields query) (initState 2) 42
     = (inl st, 42)
  /\ Demo.post query 42
     = (inl (mkPost "dicebot" "c1" "r1"
               ("**bob** rolls *+9223372036854775807 +1* = "
                  +:+ "**-9223372036854775808**")), 42)
  /\ sum st <> total rs.
Proof.
  cbv zeta. repeat split; try (vm_compute; reflexivity).
  vm_compute. discriminate.
Qed.

(** C2 as stated fails on the state: the request before the refused one
    has been rolled, and the random source has moved. *)
Lemma invalid_request_state_counterexample :
  Demo.post "5D6 abc" 42
  = (inr (appError
            ("'abc' is not a valid roll request." +:+ helpSuffix)
            (Some "'abc' is not a valid roll request.")),
     12546512532490043765)
  /\ (Demo.post "5D6 abc" 42).2 <> 42.
Proof. split; vm_compute; [reflexivity | discriminate]. Qed.

(** C3 as stated fails on a query of two keywords: no request is left
    once [sum] is skipped, and the evaluation succeeds with total 0. *)
Lemma empty_request_counterexample :
  List.filter notSum (Go.Fields "sum sum") = []
  /\ Demo.post "sum sum" 42
     = (inl (mkPost "dicebot" "c1" "r1" "**bob** rolls *sum sum* = **0**"), 42)
  /\ Evaluate (Spec.rollDice (source := Demo.lcg)) "sum sum" 42
     = (inl ([], 0), 42).
Proof. repeat split; vm_compute; reflexivity. Qed.

(** C5 as stated fails on two requests that roll one die between them:
    the message holds the total alone. *)
Lemma breakdown_counterexample :
  Go.Fields "6 +3" = ["6"; "+3"]
  /\ (Demo.post "6 +3" 42).1
     = inl (mkPost "dicebot" "c1" "r1" "**bob** rolls *6 +3* = **4**").
Proof. split; vm_compute; reflexivity. Qed.

(** C6 as stated fails on every post: the header comes before the total
    in bold, so the message does not start with a number in bold. *)
Lemma header_before_total_counterexample :
  (Demo.post "6" 42).1
  = inl (mkPost "dicebot" "c1" "r1" "**bob** rolls *6* = **1**")
  /\ forall (shown : Z) (tail : string),
       "**bob** rolls *6* = **1**"
       <> "**" +:+ Go.Sprintf_d shown +:+ "**" +:+ tail.
Proof.
  split; [vm_compute; reflexivity|].
  intros shown tail Heq. step_append. injection Heq as Heq.
  destruct (Go.Sprintf_d shown) as [|c s] eqn:Hd; step_append.
  - discriminate.
  - injection Heq as Hc _. symmetry in Hc. subst c.
    exact (Sprintf_d_not_b _ _ Hd).
Qed.

(** * The command handler *)

(** ** Prefixes and the first replacement *)

Lemma HasPrefix_append (p s : string) : Go.HasPrefix (p +:+ s) p = true.
Proof.
  induction p as [|c p IH]; [reflexivity|].
  rewrite append_cons. simpl. now rewrite Ascii.eqb_refl, IH.
Qed.

Lemma HasPrefix_append_append (p s q : string) :
  Go.HasPrefix (p +:+ s) (p +:+ q) = Go.HasPrefix s q.
Proof.
  induction p as [|c p IH]; [reflexivity|].
  rewrite !append_cons. simpl. now rewrite Ascii.eqb_refl, IH.
Qed.

Lemma HasPrefix_inv (p : string) :
  forall s, Go.HasPrefix s p = true -> exists r, s = p +:+ r.
Proof.
  induction p as [|c p IH]; intros s H.
  - exists s. reflexivity.
  - destruct s as [|d s]; [discriminate|]. simpl in H.
    apply andb_prop in H as [Hc Hp]. apply Ascii.eqb_eq in Hc. subst d.
    destruct (IH _ Hp) as [r ->]. exists r. reflexivity.
Qed.

Lemma dropBytes_append (p s : string) :
  Go.dropBytes (String.length p) (p +:+ s) = s.
Proof. induction p as [|c p IH]; [now destruct s | exact IH]. Qed.

Lemma ReplaceFirst_unfold (s old new : string) :
  Go.ReplaceFirst s old new
  = if Go.HasPrefix s old then new +:+ Go.dropBytes (String.length old) s
    else
      match s with
      | EmptyString => EmptyString
      | String c s' => String c (Go.ReplaceFirst s' old new)
      end.
Proof. destruct s; reflexivity. Qed.

(** A string that starts with [old] loses it, and nothing else. *)
Lemma ReplaceFirst_prefix (p s new : string) :
  Go.ReplaceFirst (p +:+ s) p new = new +:+ s.
Proof.
  now rewrite ReplaceFirst_unfold, HasPrefix_append, dropBytes_append.
Qed.

Lemma roll_HasPrefix_roll (s : string) :
  Go.HasPrefix ("/roll" +:+ s) ("/" +:+ trigger) = true.
Proof. apply (HasPrefix_append "/roll"). Qed.

Lemma roll_HasPrefix_rollAndClose (s : string) :
  Go.HasPrefix ("/roll" +:+ s) (("/" +:+ trigger) +:+ closeModifier)
  = Go.HasPrefix s closeModifier.
Proof. apply (HasPrefix_append_append "/roll"). Qed.

Lemma roll_ReplaceFirst (s new : string) :
  Go.ReplaceFirst ("/roll" +:+ s) ("/" +:+ trigger) new = new +:+ s.
Proof. apply (ReplaceFirst_prefix "/roll"). Qed.

Lemma roll_HasPrefix_close (s : string) :
  Go.HasPrefix ("/roll" +:+ s) ("/" +:+ closeCommand) = false.
Proof. reflexivity. Qed.

Lemma close_HasPrefix_roll (s : string) :
  Go.HasPrefix ("/close" +:+ s) ("/" +:+ trigger) = false.
Proof. reflexivity. Qed.

Lemma close_HasPrefix_close (s : string) :
  Go.HasPrefix ("/close" +:+ s) ("/" +:+ closeCommand) = true.
Proof. apply (HasPrefix_append "/close"). Qed.

(** ** White space at the ends *)

Lemma trimLeft_snoc_byte (c : ascii) (ps : list Go.piece) :
  Go.trimLeft (ps ++ [Go.Byte c])%list = (Go.trimLeft ps ++ [Go.Byte c])%list.
Proof.
  induction ps as [|p ps IH]; [reflexivity|].
  destruct p as [w|d]; simpl; [exact IH | reflexivity].
Qed.

Lemma trimRight_cons_byte (c : ascii) (ps : list Go.piece) :
  Go.trimRight (Go.Byte c :: ps) = Go.Byte c :: Go.trimRight ps.
Proof.
  unfold Go.trimRight. simpl rev.
  now rewrite trimLeft_snoc_byte, rev_app_distr.
Qed.

(** A string whose first piece is a byte keeps it when trimmed. *)
Lemma TrimSpace_head (s : string) (c : ascii) (ps : list Go.piece) :
  Go.pieces s = Go.Byte c :: ps ->
  Go.TrimSpace s = String c (Go.unpieces (Go.trimRight ps)).
Proof.
  intros Hp. unfold Go.TrimSpace. rewrite Hp. simpl Go.trimLeft.
  now rewrite trimRight_cons_byte.
Qed.

Lemma pieces_A (s : string) :
  Go.pieces (String "A" s) = Go.Byte "A" :: Go.pieces s.
Proof. destruct s as [|c2 [|c3 s3]]; reflexivity. Qed.

(** The text after [/roll] that starts with the modifier [AndClose] is
    neither blank nor the keyword [sum]. *)
Lemma AndClose_TrimSpace (s : string) :
  Go.HasPrefix s closeModifier = true ->
  exists rest, Go.TrimSpace s = String "A" rest.
Proof.
  intros H. apply HasPrefix_inv in H as [r ->].
  change (closeModifier +:+ r) with (String "A" ("ndClose" +:+ r)).
  eexists. apply TrimSpace_head, pieces_A.
Qed.

Lemma not_AndClose (s : string) :
  (forall rest, Go.TrimSpace s <> String "A" rest) ->
  Go.HasPrefix s closeModifier = false.
Proof.
  intros Hno. destruct (Go.HasPrefix s closeModifier) eqn:H; [|reflexivity].
  destruct (AndClose_TrimSpace _ H) as [rest Hr]. now apply Hno in Hr.
Qed.

(** ** The exits of [generateDicePost] and of [ExecuteCommand] *)

Section Exits.

Context {Rng error Server regError : Type} (Error : error -> string).
Context (rollDice : string -> Rng -> (rollResult + error) * Rng).
Context (diceBotID : string).
Context (api : API.t Server regError).

Local Abbreviation exec := (ExecuteCommand Error rollDice diceBotID (Some api)).
Local Abbreviation dicePost :=
  (generateDicePost Error rollDice (API.GetUser api) diceBotID).
Local Abbreviation closePost := (generateClosePost diceBotID api).

(** The errors [generateDicePost] makes itself. *)
Lemma generateDicePost_errors
  (query userID channelID rootID : string) (g g' : Rng) (user : User)
  (e : AppError) :
  API.GetUser api userID = inl user ->
  dicePost query userID channelID rootID g = (inr e, g') ->
  e = appError emptyRequestMessage None
  \/ exists err, e = invalidRequestError (Error err).
Proof.
  intros Huser Hpost.
  rewrite (generateDicePost_Evaluate _ _ _ _ _ _ _ _ _ _ Huser) in Hpost.
  destruct (Evaluate rollDice query g) as [[[rs t]|[|token err]] g1];
    inversion Hpost; subst; eauto.
Qed.

Lemma generateDicePost_errors_not_trigger
  (query userID channelID rootID command : string) (g g' : Rng) (user : User)
  (e : AppError) :
  API.GetUser api userID = inl user ->
  dicePost query userID channelID rootID g = (inr e, g') ->
  e <> triggerError command.
Proof.
  intros Huser Hpost Heq.
  destruct (generateDicePost_errors _ _ _ _ _ _ _ _ Huser Hpost)
    as [-> | [err ->]].
  - discriminate Heq.
  - unfold invalidRequestError, triggerError, appError in Heq.
    injection Heq as Hid Hdet. rewrite Hdet in Hid. discriminate Hid.
Qed.

(** A command that starts with [/roll] and not with [/rollAndClose]. *)
Lemma exec_roll (args : CommandArgs.t) (s : string) (g : Rng) (srv : Server) :
  CommandArgs.Command args = "/roll" +:+ s ->
  Go.HasPrefix s closeModifier = false ->
  exec args g srv
  = if isHelp (Go.TrimSpace s) then (inl GetHelpMessage, g, srv)
    else
      match dicePost (Go.TrimSpace s) (CommandArgs.UserId args)
              (CommandArgs.ChannelId args) (CommandArgs.RootId args) g with
      | (inr e, g') => (inr e, g', srv)
      | (inl post, g') =>
          match API.CreatePost api post srv with
          | (inr e, srv') => (inr e, g', srv')
          | (inl _, srv') => (inl emptyResponse, g', srv')
          end
      end.
Proof.
  intros Hc Hs. unfold ExecuteCommand. cbv zeta. rewrite Hc.
  rewrite !roll_HasPrefix_roll, !roll_HasPrefix_rollAndClose, Hs.
  rewrite !roll_ReplaceFirst, !roll_HasPrefix_close.
  reflexivity.
Qed.

(** A command that starts with [/rollAndClose]. *)
Lemma exec_rollAndClose (args : CommandArgs.t) (s : string) (g : Rng)
  (srv : Server) :
  CommandArgs.Command args = "/rollAndClose" +:+ s ->
  exec args g srv
  = if isHelp (Go.TrimSpace s) then (inl GetHelpMessage, g, srv)
    else
      match dicePost (Go.TrimSpace s) (CommandArgs.UserId args)
              (CommandArgs.ChannelId args) (CommandArgs.RootId args) g with
      | (inr e, g') => (inr e, g', srv)
      | (inl post, g') =>
          match API.CreatePost api post srv with
          | (inr e, srv1) => (inr e, g', srv1)
          | (inl _, srv1) =>
              match closePost (CommandArgs.UserId args)
                      (CommandArgs.ChannelId args) (CommandArgs.RootId args) with
              | inr e => (inr e, g', srv1)
              | inl post2 =>
                  match API.CreatePost api post2 srv1 with
                  | (inr e, srv2) => (inr e, g', srv2)
                  | (inl _, srv2) => (inl emptyResponse, g', srv2)
                  end
              end
          end
      end.
Proof.
  intros Hc. unfold ExecuteCommand. cbv zeta. rewrite Hc.
  change ("/rollAndClose" +:+ s) with ("/roll" +:+ closeModifier +:+ s).
  rewrite !roll_HasPrefix_roll, !roll_HasPrefix_rollAndClose.
  rewrite !HasPrefix_append, !roll_HasPrefix_close.
  change ("/roll" +:+ closeModifier +:+ s)
    with ((("/" +:+ trigger) +:+ closeModifier) +:+ s).
  rewrite !ReplaceFirst_prefix.
  reflexivity.
Qed.

(** A command that starts with [/close]. *)
Lemma exec_close (args : CommandArgs.t) (g : Rng) (srv : Server) :
  Go.HasPrefix (CommandArgs.Command args) "/close" = true ->
  exec args g srv
  = match closePost (CommandArgs.UserId args)
            (CommandArgs.ChannelId args) (CommandArgs.RootId args) with
    | inr e => (inr e, g, srv)
    | inl post =>
        match API.CreatePost api post srv with
        | (inr e, srv') => (inr e, g, srv')
        | (inl _, srv') => (inl emptyResponse, g, srv')
        end
    end.
Proof.
  intros Hc. destruct (HasPrefix_inv _ _ Hc) as [r Hr].
  unfold ExecuteCommand. cbv zeta. rewrite Hr.
  rewrite close_HasPrefix_roll, !close_HasPrefix_close.
  reflexivity.
Qed.

(** A command that starts with neither. *)
Lemma exec_unknown (args : CommandArgs.t) (g : Rng) (srv : Server) :
  Go.HasPrefix (CommandArgs.Command args) "/roll" = false ->
  Go.HasPrefix (CommandArgs.Command args) "/close" = false ->
  exec args g srv = (inr (triggerError (CommandArgs.Command args)), g, srv).
Proof.
  intros Hr Hc. unfold ExecuteCommand. cbv zeta.
  change ("/" +:+ trigger) with "/roll".
  change ("/" +:+ closeCommand) with "/close".
  now rewrite Hr, !Hc.
Qed.

End Exits.

(** ** What a command does *)

Section Commands.

Context {Rng error Server regError : Type} (Error : error -> string).
Context (rollDice : string -> Rng -> (rollResult + error) * Rng).
Context (diceBotID : string).
Context (api : API.t Server regError).

Local Abbreviation exec := (ExecuteCommand Error rollDice diceBotID (Some api)).
Local Abbreviation dicePost :=
  (generateDicePost Error rollDice (API.GetUser api) diceBotID).
Local Abbreviation closePost := (generateClosePost diceBotID api).

(** When the user is found and the server takes the posts, a command
    with a known trigger is never answered with the error of the unknown
    trigger. *)
Lemma known_trigger_served (args : CommandArgs.t) (g : Rng) (srv : Server)
  (user : User) :
  API.GetUser api (CommandArgs.UserId args) = inl user ->
  (forall p s, exists p' s', API.CreatePost api p s = (inl p', s')) ->
  Go.HasPrefix (CommandArgs.Command args) "/roll" = true
  \/ Go.HasPrefix (CommandArgs.Command args) "/close" = true ->
  (exec args g srv).1.1 <> inr (triggerError (CommandArgs.Command args)).
Proof.
  intros Hu Hcreate Hknown.
  assert (Hclose : forall c r (g0 : Rng) srv0,
             (match closePost (CommandArgs.UserId args) c r with
              | inr e => (inr e, g0, srv0)
              | inl post =>
                  match API.CreatePost api post srv0 with
                  | (inr e, srv') => (inr e, g0, srv')
                  | (inl _, srv') => (inl emptyResponse, g0, srv')
                  end
              end).1.1 <> inr (triggerError (CommandArgs.Command args))).
  { intros c r g0 srv0. unfold generateClosePost. rewrite Hu.
    match goal with
    | |- context [API.CreatePost api ?p srv0] =>
        destruct (Hcreate p srv0) as (p' & s' & ->)
    end.
    discriminate. }
  destruct (Go.HasPrefix (CommandArgs.Command args) "/roll") eqn:Hroll.
  - destruct (HasPrefix_inv _ _ Hroll) as [s Hs].
    destruct (Go.HasPrefix s closeModifier) eqn:Hac.
    + destruct (HasPrefix_inv _ _ Hac) as [s' ->].
      rewrite (exec_rollAndClose _ _ _ _ args s' g srv Hs).
      destruct (isHelp (Go.TrimSpace s')); [discriminate|].
      destruct (dicePost (Go.TrimSpace s') _ _ _ g) as [[post|e] g'] eqn:Hd.
      * destruct (Hcreate post srv) as (p' & s1 & ->). apply Hclose.
      * simpl. intros Heq. injection Heq as Heq.
        revert Heq. eapply generateDicePost_errors_not_trigger; eassumption.
    + rewrite (exec_roll _ _ _ _ args s g srv Hs Hac).
      destruct (isHelp (Go.TrimSpace s)); [discriminate|].
      destruct (dicePost (Go.TrimSpace s) _ _ _ g) as [[post|e] g'] eqn:Hd.
      * destruct (Hcreate post srv) as (p' & s1 & ->). discriminate.
      * simpl. intros Heq. injection Heq as Heq.
        revert Heq. eapply generateDicePost_errors_not_trigger; eassumption.
  - destruct Hknown as [Hk | Hk]; [discriminate|].
    rewrite (exec_close _ _ _ _ args g srv Hk). apply Hclose.
Qed.

(** X1.  With its API, [ExecuteCommand] answers every command that
    starts with neither [/roll] nor [/close] with the error that names
    it, and neither the random source nor the server is touched,
    whatever the API does.  When the user is found and the server takes
    the posts, no other command gets that error.  Without its API every
    command gets the error of the missing API instead. *)
Theorem trigger_error_iff (args : CommandArgs.t) (g : Rng) (srv : Server) :
  (Go.HasPrefix (CommandArgs.Command args) "/roll" = false ->
   Go.HasPrefix (CommandArgs.Command args) "/close" = false ->
   exec args g srv = (inr (triggerError (CommandArgs.Command args)), g, srv))
  /\ (forall user : User,
        API.GetUser api (CommandArgs.UserId args) = inl user ->
        (forall p s, exists p' s', API.CreatePost api p s = (inl p', s')) ->
        (exec args g srv).1.1 = inr (triggerError (CommandArgs.Command args)) ->
        Go.HasPrefix (CommandArgs.Command args) "/roll" = false
        /\ Go.HasPrefix (CommandArgs.Command args) "/close" = false)
  /\ ExecuteCommand Error rollDice diceBotID
       (None : option (API.t Server regError)) args g srv
     = (inr (appError "Cannot access the plugin API." None), g, srv).
Proof.
  split; [|split].
  - intros Hr Hc. exact (exec_unknown _ _ _ _ args g srv Hr Hc).
  - intros user Huser Hcreate Herr.
    destruct (Go.HasPrefix (CommandArgs.Command args) "/roll") eqn:Hr;
      [exfalso; eapply known_trigger_served; eauto|].
    destruct (Go.HasPrefix (CommandArgs.Command args) "/close") eqn:Hc;
      [exfalso; eapply known_trigger_served; eauto | auto].
  - reflexivity.
Qed.

Lemma isHelp_not_A (query : string) :
  isHelp query = true -> forall rest, query <> String "A" rest.
Proof.
  intros H rest ->. unfold isHelp in H. simpl in H. discriminate.
Qed.

(** X2.  Asking for the help, after [/roll] or after [/rollAndClose],
    returns the help text and does nothing else: no die is rolled, no
    post is created and the round is not closed, whatever the API. *)
Theorem help_does_nothing_else
  (args : CommandArgs.t) (s : string) (g : Rng) (srv : Server) :
  isHelp (Go.TrimSpace s) = true ->
  CommandArgs.Command args = "/roll" +:+ s
  \/ CommandArgs.Command args = "/rollAndClose" +:+ s ->
  exec args g srv = (inl GetHelpMessage, g, srv).
Proof.
  intros Hhelp [Hc | Hc].
  - rewrite (exec_roll _ _ _ _ args s g srv Hc
               (not_AndClose _ (isHelp_not_A _ Hhelp))).
    now rewrite Hhelp.
  - rewrite (exec_rollAndClose _ _ _ _ args s g srv Hc). now rewrite Hhelp.
Qed.

(** X3.  A command that starts with [/close] creates one post, the
    announcement that names the user by nickname or else by username,
    sent by the bot to the channel and thread of the command; what
    follows [/close] is not read and no die is rolled. *)
Theorem close_posts_announcement
  (args : CommandArgs.t) (g : Rng) (srv : Server) (user : User) :
  Go.HasPrefix (CommandArgs.Command args) "/close" = true ->
  API.GetUser api (CommandArgs.UserId args) = inl user ->
  exec args g srv
  = match
      API.CreatePost api
        {| UserId := diceBotID;
           ChannelId := CommandArgs.ChannelId args;
           RootId := CommandArgs.RootId args;
           Message :=
             "**Rien ne va plus!!!!**" +:+ Go.newline +:+ "_"
               +:+ (if String.eqb (Nickname user) EmptyString
                    then Username user else Nickname user)
               +:+ " closes the round._" |} srv
    with
    | (inr e, srv') => (inr e, g, srv')
    | (inl _, srv') => (inl emptyResponse, g, srv')
    end.
Proof.
  intros Hc Hu. rewrite (exec_close _ _ _ _ args g srv Hc).
  unfold generateClosePost. now rewrite Hu.
Qed.

(** X4.  A command [/roll] followed by a text that is not a request for
    help evaluates that text, trimmed.  When the evaluation fails the
    error is returned and nothing is posted; otherwise the dice post is
    the one post created and the reply is empty.  The round is not
    closed. *)
Theorem roll_posts_once
  (args : CommandArgs.t) (s : string) (g : Rng) (srv : Server) :
  CommandArgs.Command args = "/roll" +:+ s ->
  Go.HasPrefix s closeModifier = false ->
  isHelp (Go.TrimSpace s) = false ->
  exec args g srv
  = match dicePost (Go.TrimSpace s) (CommandArgs.UserId args)
            (CommandArgs.ChannelId args) (CommandArgs.RootId args) g with
    | (inr e, g') => (inr e, g', srv)
    | (inl post, g') =>
        match API.CreatePost api post srv with
        | (inr e, srv') => (inr e, g', srv')
        | (inl _, srv') => (inl emptyResponse, g', srv')
        end
    end.
Proof.
  intros Hc Hac Hhelp.
  now rewrite (exec_roll _ _ _ _ args s g srv Hc Hac), Hhelp.
Qed.

(** X5.  [/rollAndClose] creates the dice post first and the
    announcement of the close after it, on the server as the dice post
    left it, and replies with the empty response. *)
Theorem rollAndClose_posts_in_order
  (args : CommandArgs.t) (s : string) (g g' : Rng) (srv srv1 srv2 : Server)
  (user : User) (post created1 created2 : Post) :
  CommandArgs.Command args = "/rollAndClose" +:+ s ->
  isHelp (Go.TrimSpace s) = false ->
  API.GetUser api (CommandArgs.UserId args) = inl user ->
  dicePost (Go.TrimSpace s) (CommandArgs.UserId args)
    (CommandArgs.ChannelId args) (CommandArgs.RootId args) g
  = (inl post, g') ->
  API.CreatePost api post srv = (inl created1, srv1) ->
  API.CreatePost api
    {| UserId := diceBotID;
       ChannelId := CommandArgs.ChannelId args;
       RootId := CommandArgs.RootId args;
       Message :=
         "**Rien ne va plus!!!!**" +:+ Go.newline +:+ "_"
           +:+ displayNameOf user +:+ " closes the round._" |} srv1
  = (inl created2, srv2) ->
  exec args g srv = (inl emptyResponse, g', srv2).
Proof.
  intros Hc Hhelp Hu Hd H1 H2.
  rewrite (exec_rollAndClose _ _ _ _ args s g srv Hc), Hhelp, Hd, H1.
  unfold generateClosePost. now rewrite Hu, H2.
Qed.

(** X6.  When the evaluation of [/rollAndClose] fails, its error is
    returned, nothing is posted and the round is not closed: the server
    is as it was. *)
Theorem rollAndClose_failed_roll
  (args : CommandArgs.t) (s : string) (g g' : Rng) (srv : Server)
  (e : AppError) :
  CommandArgs.Command args = "/rollAndClose" +:+ s ->
  isHelp (Go.TrimSpace s) = false ->
  dicePost (Go.TrimSpace s) (CommandArgs.UserId args)
    (CommandArgs.ChannelId args) (CommandArgs.RootId args) g
  = (inr e, g') ->
  exec args g srv = (inr e, g', srv).
Proof.
  intros Hc Hhelp Hd.
  now rewrite (exec_rollAndClose _ _ _ _ args s g srv Hc), Hhelp, Hd.
Qed.

(** X7.  [/rollAndClose] is not undone when the close fails: if the
    server refuses the announcement, the error is returned while the
    dice post has been created and the dice have been rolled. *)
Theorem rollAndClose_failed_close
  (args : CommandArgs.t) (s : string) (g g' : Rng) (srv srv1 srv2 : Server)
  (user : User) (post created1 : Post) (e : AppError) :
  CommandArgs.Command args = "/rollAndClose" +:+ s ->
  isHelp (Go.TrimSpace s) = false ->
  API.GetUser api (CommandArgs.UserId args) = inl user ->
  dicePost (Go.TrimSpace s) (CommandArgs.UserId args)
    (CommandArgs.ChannelId args) (CommandArgs.RootId args) g
  = (inl post, g') ->
  API.CreatePost api post srv = (inl created1, srv1) ->
  API.CreatePost api
    {| UserId := diceBotID;
       ChannelId := CommandArgs.ChannelId args;
       RootId := CommandArgs.RootId args;
       Message :=
         "**Rien ne va plus!!!!**" +:+ Go.newline +:+ "_"
           +:+ displayNameOf user +:+ " closes the round._" |} srv1
  = (inr e, srv2) ->
  exec args g srv = (inr e, g', srv2).
Proof.
  intros Hc Hhelp Hu Hd H1 H2.
  rewrite (exec_rollAndClose _ _ _ _ args s g srv Hc), Hhelp, Hd, H1.
  unfold generateClosePost. now rewrite Hu, H2.
Qed.

(** X8.  A command [/roll] or [/rollAndClose] followed by nothing but
    white space does what the same command followed by [100] does. *)
Theorem blank_command_rolls_100
  (ws userID channelID rootID : string) (g : Rng) (srv : Server) :
  Go.TrimSpace ws = EmptyString ->
  exec (CommandArgs.mk ("/roll" +:+ ws) userID channelID rootID) g srv
  = exec (CommandArgs.mk "/roll 100" userID channelID rootID) g srv
  /\ exec (CommandArgs.mk ("/rollAndClose" +:+ ws) userID channelID rootID)
       g srv
     = exec (CommandArgs.mk "/rollAndClose 100" userID channelID rootID)
         g srv.
Proof.
  intros Hb.
  assert (Hac : Go.HasPrefix ws closeModifier = false).
  { apply not_AndClose. intros rest Hr. rewrite Hb in Hr. discriminate. }
  assert (Hd : forall u c r (g0 : Rng),
             dicePost EmptyString u c r g0 = dicePost "100" u c r g0)
    by reflexivity.
  split.
  - rewrite (exec_roll _ _ _ _
               (CommandArgs.mk ("/roll" +:+ ws) userID channelID rootID)
               ws g srv eq_refl Hac).
    rewrite (exec_roll _ _ _ _
               (CommandArgs.mk "/roll 100" userID channelID rootID)
               " 100" g srv eq_refl eq_refl).
    rewrite Hb. change (Go.TrimSpace " 100") with "100".
    simpl isHelp. cbn [CommandArgs.UserId CommandArgs.ChannelId CommandArgs.RootId].
    now rewrite Hd.
  - rewrite (exec_rollAndClose _ _ _ _
               (CommandArgs.mk ("/rollAndClose" +:+ ws) userID channelID rootID)
               ws g srv eq_refl).
    rewrite (exec_rollAndClose _ _ _ _
               (CommandArgs.mk "/rollAndClose 100" userID channelID rootID)
               " 100" g srv eq_refl).
    rewrite Hb. change (Go.TrimSpace " 100") with "100".
    simpl isHelp. cbn [CommandArgs.UserId CommandArgs.ChannelId CommandArgs.RootId].
    now rewrite Hd.
Qed.

(** X9.  A command [/roll] or [/rollAndClose] whose text, trimmed, is the
    keyword [sum] fails with the error of the empty request: no die is
    rolled, nothing is posted and the round is not closed. *)
Theorem sum_command_is_empty
  (args : CommandArgs.t) (s : string) (g : Rng) (srv : Server) (user : User) :
  Go.TrimSpace s = "sum" ->
  API.GetUser api (CommandArgs.UserId args) = inl user ->
  CommandArgs.Command args = "/roll" +:+ s
  \/ CommandArgs.Command args = "/rollAndClose" +:+ s ->
  exec args g srv = (inr (appError emptyRequestMessage None), g, srv).
Proof.
  intros Hs Hu Hc.
  assert (Hd : dicePost "sum" (CommandArgs.UserId args)
                 (CommandArgs.ChannelId args) (CommandArgs.RootId args) g
               = (inr (appError emptyRequestMessage None), g)).
  { now rewrite (generateDicePost_Evaluate _ _ _ _ _ _ _ _ _ _ Hu). }
  destruct Hc as [Hc | Hc].
  - assert (Hac : Go.HasPrefix s closeModifier = false).
    { apply not_AndClose. intros rest Hr. rewrite Hs in Hr. discriminate. }
    rewrite (exec_roll _ _ _ _ args s g srv Hc Hac), Hs. simpl isHelp.
    now rewrite Hd.
  - rewrite (exec_rollAndClose _ _ _ _ args s g srv Hc), Hs. simpl isHelp.
    now rewrite Hd.
Qed.

End Commands.

(** ** [filterEmptyString] *)

(** X10.  [filterEmptyString] returns the strings of its argument that
    are not empty, in their order: nothing empty is left, nothing else
    is lost, and a slice without an empty string comes back as it is. *)
Theorem filterEmptyString_removes_empty_only (arr : list string) :
  filterEmptyString arr = List.filter nonEmpty arr
  /\ Forall (fun s => s <> EmptyString) (filterEmptyString arr)
  /\ (forall s, In s (filterEmptyString arr) <-> In s arr /\ s <> EmptyString)
  /\ (Forall (fun s => s <> EmptyString) arr -> filterEmptyString arr = arr).
Proof.
  rewrite filterEmptyString_filter. split; [reflexivity|].
  assert (Hne : forall s, nonEmpty s = true <-> s <> EmptyString).
  { intros s. unfold nonEmpty. rewrite Bool.negb_true_iff.
    apply String.eqb_neq. }
  split; [|split].
  - induction arr as [|a arr IH]; simpl; [constructor|].
    destruct (nonEmpty a) eqn:Ha; [constructor; [now apply Hne | exact IH]|].
    exact IH.
  - intros s. rewrite List.filter_In, Hne. reflexivity.
  - induction 1 as [|a arr Ha _ IH]; simpl; [reflexivity|].
    apply Hne in Ha. now rewrite Ha, IH.
Qed.

(** X11.  [filterEmptyString] goes through concatenation, filtering
    twice is filtering once, and the result is never longer than the
    argument. *)
Theorem filterEmptyString_composes (a b : list string) :
  filterEmptyString (a ++ b)%list
  = (filterEmptyString a ++ filterEmptyString b)%list
  /\ filterEmptyString (filterEmptyString a) = filterEmptyString a
  /\ (length (filterEmptyString a) <= length a)%nat.
Proof.
  rewrite !filterEmptyString_filter. split; [apply List.filter_app|]. split.
  - induction a as [|x a IH]; simpl; [reflexivity|].
    destruct (nonEmpty x) eqn:Hx; simpl; [now rewrite Hx, IH | exact IH].
  - induction a as [|x a IH]; simpl; [lia|].
    destruct (nonEmpty x); simpl; lia.
Qed.

(** ** The spacing of a query *)

Lemma summary_header (displayName query : string) (shown dice : Z)
  (lines : list string) :
  exists rest,
    forall q,
      summary displayName q shown dice lines
      = header displayName q +:+ rest.
Proof.
  unfold summary, header. destruct (1 <? dice)%Z.
  - eexists. intros q. rewrite !append_assoc. reflexivity.
  - eexists. intros q. rewrite !append_assoc. reflexivity.
Qed.

Section Spacing.

Context {Rng : Type} {error : Type} (Error : error -> string).
Context (rollDice : string -> Rng -> (rollResult + error) * Rng).
Context (GetUser : string -> User + AppError).
Context (diceBotID : string).

Local Abbreviation post := (generateDicePost Error rollDice GetUser diceBotID).

(** X12.  Only the requests of a query count, not the white space
    between them: two queries with the same requests, neither being the
    keyword [sum] alone, are evaluated alike from the same random source;
    both fail with the same error or both succeed, leaving the same
    random source, with messages that differ in the query quoted by the
    header and in nothing else. *)
Theorem spacing_is_irrelevant
  (query1 query2 userID channelID rootID : string) (g : Rng) (user : User) :
  GetUser userID = inl user ->
  Go.Fields query1 = Go.Fields query2 ->
  Go.Fields query1 <> [] ->
  query1 <> "sum" ->
  query2 <> "sum" ->
  Evaluate rollDice query1 g = Evaluate rollDice query2 g
  /\ match post query1 userID channelID rootID g,
           post query2 userID channelID rootID g with
     | (inl p1, g1), (inl p2, g2) =>
         g1 = g2
         /\ exists rest,
              Message p1 = header (displayNameOf user) query1 +:+ rest
              /\ Message p2 = header (displayNameOf user) query2 +:+ rest
     | (inr e1, g1), (inr e2, g2) => e1 = e2 /\ g1 = g2
     | _, _ => False
     end.
Proof.
  intros Huser HF Hne H1 H2.
  assert (Hb1 : Go.TrimSpace query1 <> EmptyString).
  { intros Hb. now apply Fields_nil_iff_blank in Hb. }
  assert (Hb2 : Go.TrimSpace query2 <> EmptyString).
  { intros Hb. apply Fields_nil_iff_blank in Hb. congruence. }
  assert (HE : Evaluate rollDice query1 g = Evaluate rollDice query2 g).
  { unfold Evaluate.
    rewrite (eqb_empty_false _ Hb1), (eqb_empty_false _ Hb2), <- HF.
    apply String.eqb_neq in H1, H2. now rewrite H1, H2. }
  split; [exact HE|].
  rewrite !(generateDicePost_Evaluate _ _ _ _ _ _ _ _ _ _ Huser), <- HE.
  rewrite (defaultQuery_nonblank _ Hb1), (defaultQuery_nonblank _ Hb2).
  destruct (Evaluate rollDice query1 g) as [[[rs t]|[|token err]] g1]; auto.
  split; [reflexivity|]. simpl.
  destruct (summary_header (displayNameOf user) query1
              (Go.wrap (total rs)) (Go.wrap (diceRolled rs))
              (map detailLine rs)) as [rest Hrest].
  exists rest. now rewrite !Hrest.
Qed.

End Spacing.

(** ** The triggers registered and the triggers served *)

(** X13.  Every trigger that [OnActivate] registers is served by
    [ExecuteCommand]: when the user is found and the server takes the
    posts, a command made of a slash, a registered trigger and any text
    is never answered with the error of the unknown trigger. *)
Theorem registered_triggers_are_served
  {Rng error Server regError : Type} (Error : error -> string)
  (rollDice : string -> Rng -> (rollResult + error) * Rng)
  (diceBotID : string) (api : API.t Server regError)
  (cmd : Command) (text userID channelID rootID : string)
  (g : Rng) (srv : Server) (user : User) :
  API.GetUser api userID = inl user ->
  (forall p s, exists p' s', API.CreatePost api p s = (inl p', s')) ->
  In cmd (OnActivate Demo.api (fun now : Z => now) 0 ([], [])).2.1 ->
  (ExecuteCommand Error rollDice diceBotID (Some api)
     (CommandArgs.mk ("/" +:+ Trigger cmd +:+ text) userID channelID rootID)
     g srv).1.1
  <> inr (triggerError ("/" +:+ Trigger cmd +:+ text)).
Proof.
  intros Huser Hcreate Hin.
  apply (known_trigger_served Error rollDice diceBotID api
           (CommandArgs.mk ("/" +:+ Trigger cmd +:+ text)
              userID channelID rootID) g srv user Huser Hcreate).
  simpl in Hin. destruct Hin as [<- | [<- | [<- | []]]].
  - left. apply (HasPrefix_append "/roll").
  - right. apply (HasPrefix_append "/close").
  - left. apply (HasPrefix_append "/roll" ("AndClose" +:+ text)).
Qed.

(** ** The lines of the breakdown as they read *)

Lemma isSpace2_low_l (c c2 : ascii) :
  (N_of_ascii c < 128)%N -> Go.isSpace2 c c2 = false.
Proof.
  intros H. unfold Go.isSpace2. cbv zeta.
  destruct (N.eqb_spec (N_of_ascii c) 194); [lia | reflexivity].
Qed.

Lemma isSpace2_low_r (c1 c : ascii) :
  (N_of_ascii c < 128)%N -> Go.isSpace2 c1 c = false.
Proof.
  intros H. unfold Go.isSpace2. cbv zeta.
  destruct (N.eqb_spec (N_of_ascii c) 133); [lia|].
  destruct (N.eqb_spec (N_of_ascii c) 160); [lia|].
  apply andb_false_r.
Qed.

Ltac case_eqbs :=
  repeat match goal with
    | |- context [(?a =? ?b)%N] => destruct (a =? b)%N
    | |- context [(?a <=? ?b)%N] => destruct (a <=? b)%N
    end; reflexivity.

Lemma isSpace3_low_l (c c2 c3 : ascii) :
  (N_of_ascii c < 128)%N -> Go.isSpace3 c c2 c3 = false.
Proof.
  intros H. unfold Go.isSpace3. cbv zeta.
  destruct (N.eqb_spec (N_of_ascii c) 225); [lia|].
  destruct (N.eqb_spec (N_of_ascii c) 226); [lia|].
  destruct (N.eqb_spec (N_of_ascii c) 227); [lia|].
  reflexivity.
Qed.

Lemma isSpace3_low_m (c1 c c3 : ascii) :
  (N_of_ascii c < 128)%N -> Go.isSpace3 c1 c c3 = false.
Proof.
  intros H. unfold Go.isSpace3. cbv zeta.
  destruct (N.eqb_spec (N_of_ascii c) 154); [lia|].
  destruct (N.eqb_spec (N_of_ascii c) 128); [lia|].
  destruct (N.eqb_spec (N_of_ascii c) 129); [lia|].
  case_eqbs.
Qed.

Lemma isSpace3_low_r (c1 c2 c : ascii) :
  (N_of_ascii c < 128)%N -> Go.isSpace3 c1 c2 c = false.
Proof.
  intros H. unfold Go.isSpace3. cbv zeta.
  destruct (N.leb_spec 128 (N_of_ascii c)); [lia|].
  destruct (N.eqb_spec (N_of_ascii c) 128); [lia|].
  destruct (N.eqb_spec (N_of_ascii c) 168); [lia|].
  destruct (N.eqb_spec (N_of_ascii c) 169); [lia|].
  destruct (N.eqb_spec (N_of_ascii c) 175); [lia|].
  destruct (N.eqb_spec (N_of_ascii c) 159); [lia|].
  case_eqbs.
Qed.

Lemma plainByte_low (c : ascii) :
  plainByte c = true -> (N_of_ascii c < 128)%N /\ Go.isSpace1 c = false.
Proof.
  unfold plainByte. intros H. apply andb_prop in H as [Hl Hs].
  apply N.ltb_lt in Hl. apply Bool.negb_true_iff in Hs. auto.
Qed.

(** A plain byte of ASCII is a piece of its own, whatever follows. *)
Lemma pieces_plain (c : ascii) (rest : string) :
  plainByte c = true ->
  Go.pieces (String c rest) = Go.Byte c :: Go.pieces rest.
Proof.
  intros H. apply plainByte_low in H as [Hl Hs].
  destruct rest as [|c2 [|c3 s3]]; cbn [Go.pieces]; rewrite Hs;
    rewrite ?(isSpace2_low_l _ _ Hl), ?(isSpace3_low_l _ _ _ Hl); reflexivity.
Qed.

(** The scan of [pieces], one case at a time. *)
Lemma pieces_space1 (c1 : ascii) (s1 : string) :
  Go.isSpace1 c1 = true ->
  Go.pieces (String c1 s1) = Go.Space (String c1 EmptyString) :: Go.pieces s1.
Proof. intros H. cbn [Go.pieces]. now rewrite H. Qed.

Lemma pieces_space2 (c1 c2 : ascii) (s2 : string) :
  Go.isSpace1 c1 = false -> Go.isSpace2 c1 c2 = true ->
  Go.pieces (String c1 (String c2 s2))
  = Go.Space (String c1 (String c2 EmptyString)) :: Go.pieces s2.
Proof. intros H1 H2. cbn [Go.pieces]. now rewrite H1, H2. Qed.

Lemma pieces_space3 (c1 c2 c3 : ascii) (s3 : string) :
  Go.isSpace1 c1 = false -> Go.isSpace2 c1 c2 = false ->
  Go.isSpace3 c1 c2 c3 = true ->
  Go.pieces (String c1 (String c2 (String c3 s3)))
  = Go.Space (String c1 (String c2 (String c3 EmptyString))) :: Go.pieces s3.
Proof. intros H1 H2 H3. cbn [Go.pieces]. now rewrite H1, H2, H3. Qed.

Lemma pieces_byte1 (c1 : ascii) :
  Go.isSpace1 c1 = false -> Go.pieces (String c1 EmptyString) = [Go.Byte c1].
Proof. intros H1. cbn [Go.pieces]. now rewrite H1. Qed.

Lemma pieces_byte2 (c1 c2 : ascii) :
  Go.isSpace1 c1 = false -> Go.isSpace2 c1 c2 = false ->
  Go.pieces (String c1 (String c2 EmptyString))
  = Go.Byte c1 :: Go.pieces (String c2 EmptyString).
Proof. intros H1 H2. cbn [Go.pieces]. now rewrite H1, H2. Qed.

Lemma pieces_byte3 (c1 c2 c3 : ascii) (s3 : string) :
  Go.isSpace1 c1 = false -> Go.isSpace2 c1 c2 = false ->
  Go.isSpace3 c1 c2 c3 = false ->
  Go.pieces (String c1 (String c2 (String c3 s3)))
  = Go.Byte c1 :: Go.pieces (String c2 (String c3 s3)).
Proof. intros H1 H2 H3. cbn [Go.pieces]. now rewrite H1, H2, H3. Qed.

(** A byte of ASCII ends what is before it: the pieces before it are
    those of the string cut there. *)
Lemma pieces_before_ascii (n : nat) :
  forall (y : string) (c : ascii) (b : string),
    (String.length y <= n)%nat ->
    (N_of_ascii c < 128)%N ->
    Go.pieces (y +:+ String c b)
    = (Go.pieces y ++ Go.pieces (String c b))%list.
Proof.
  induction n as [|n IH]; intros y c b Hlen Hc.
  - destruct y; [reflexivity | simpl in Hlen; lia].
  - destruct y as [|c1 y1]; [reflexivity|].
    rewrite append_cons. simpl in Hlen.
    destruct (Go.isSpace1 c1) eqn:E1.
    { rewrite !(pieces_space1 _ _ E1). cbn [app]. f_equal.
      apply IH; [lia | exact Hc]. }
    destruct y1 as [|c2 y2].
    { rewrite append_nil_l, (pieces_byte1 _ E1). cbn [app].
      destruct b as [|c3 b3].
      - apply pieces_byte2; [exact E1 | now apply isSpace2_low_r].
      - apply pieces_byte3;
          [exact E1 | now apply isSpace2_low_r | now apply isSpace3_low_m]. }
    rewrite append_cons. simpl in Hlen.
    destruct (Go.isSpace2 c1 c2) eqn:E2.
    { rewrite !(pieces_space2 _ _ _ E1 E2). cbn [app]. f_equal.
      apply IH; [lia | exact Hc]. }
    destruct y2 as [|c3 y3].
    { rewrite append_nil_l, (pieces_byte2 _ _ E1 E2).
      rewrite (pieces_byte3 _ _ _ _ E1 E2 (isSpace3_low_r _ _ _ Hc)).
      cbn [app]. f_equal.
      apply (IH (String c2 EmptyString) c b); [simpl; lia | exact Hc]. }
    rewrite append_cons. simpl in Hlen.
    destruct (Go.isSpace3 c1 c2 c3) eqn:E3.
    { rewrite !(pieces_space3 _ _ _ _ E1 E2 E3). cbn [app]. f_equal.
      apply IH; [lia | exact Hc]. }
    rewrite !(pieces_byte3 _ _ _ _ E1 E2 E3). cbn [app]. f_equal.
    apply (IH (String c2 (String c3 y3)) c b); [simpl; lia | exact Hc].
Qed.

Lemma uint_plain (d : Decimal.uint) :
  Forall (fun c => plainByte c = true)
    (list_ascii_of_string (NilEmpty.string_of_uint d)).
Proof. induction d; simpl; constructor; (reflexivity || assumption). Qed.

(** A number printed with [%d] is made of digits and a minus sign, and
    is not empty. *)
Lemma Sprintf_d_plain (n : Z) :
  Forall (fun c => plainByte c = true) (list_ascii_of_string (Go.Sprintf_d n))
  /\ Go.Sprintf_d n <> EmptyString.
Proof.
  unfold Go.Sprintf_d.
  assert (Hu : forall d,
             Forall (fun c => plainByte c = true)
               (list_ascii_of_string (NilZero.string_of_uint d))
             /\ NilZero.string_of_uint d <> EmptyString).
  { intros d. pose proof (uint_plain d) as Hd.
    destruct d; simpl in *; split; try exact Hd; try discriminate.
    constructor; [reflexivity | constructor]. }
  destruct n as [|q|q]; simpl.
  - split; [repeat constructor | discriminate].
  - apply Hu.
  - split; [|discriminate].
    constructor; [reflexivity | apply Hu].
Qed.

Lemma pieces_plain_app (a b : string) :
  Forall (fun c => plainByte c = true) (list_ascii_of_string a) ->
  Go.pieces (a +:+ b) = (bytePieces a ++ Go.pieces b)%list.
Proof.
  induction a as [|c a IH]; intros H; [reflexivity|].
  simpl list_ascii_of_string in H. inversion H as [|? ? Hc Ha]; subst.
  rewrite append_cons, (pieces_plain _ _ Hc).
  unfold bytePieces in *. simpl. f_equal. now apply IH.
Qed.

Lemma unpieces_cons (p : Go.piece) (ps : list Go.piece) :
  Go.unpieces (p :: ps) = Go.pieceBytes p +:+ Go.unpieces ps.
Proof. reflexivity. Qed.

Lemma unpieces_bytes_app (a : string) (ps : list Go.piece) :
  Go.unpieces (bytePieces a ++ ps) = a +:+ Go.unpieces ps.
Proof.
  induction a as [|c a IH]; [reflexivity|].
  unfold bytePieces in *. simpl. rewrite IH. reflexivity.
Qed.

Lemma trimLeft_bytes_app (a : string) (c : ascii) (ps : list Go.piece) :
  Go.trimLeft (bytePieces a ++ Go.Byte c :: ps)
  = (bytePieces a ++ Go.Byte c :: ps)%list.
Proof. destruct a; reflexivity. Qed.

Lemma trimRight_bytes_app (a : string) (ps : list Go.piece) :
  Go.trimRight (bytePieces a ++ ps) = (bytePieces a ++ Go.trimRight ps)%list.
Proof.
  induction a as [|c a IH]; [reflexivity|].
  unfold bytePieces in *. simpl. now rewrite trimRight_cons_byte, IH.
Qed.

Lemma trimLeft_app_nonempty (l m : list Go.piece) :
  Go.trimLeft l <> [] -> Go.trimLeft (l ++ m) = (Go.trimLeft l ++ m)%list.
Proof.
  induction l as [|p l IH]; [intros H; now contradiction H|].
  destruct p as [w|c]; simpl; [exact IH | reflexivity].
Qed.

Lemma trimRight_cons_keep (p : Go.piece) (ps : list Go.piece) :
  Go.trimRight ps <> [] -> Go.trimRight (p :: ps) = p :: Go.trimRight ps.
Proof.
  unfold Go.trimRight. intros H. simpl rev.
  rewrite trimLeft_app_nonempty, rev_app_distr; [reflexivity|].
  intros Hnil. apply H. now rewrite Hnil.
Qed.

(** The rolls of a detail line once the space after the last one is
    trimmed. *)
Lemma rollsText_trimRight (rolls : list Z) :
  Go.unpieces (Go.trimRight (Go.pieces (String " " (rollsText rolls))))
  = spacedRolls rolls.
Proof.
  induction rolls as [|roll rest IH]; [reflexivity|].
  destruct (Sprintf_d_plain roll) as [Hplain Hne].
  simpl rollsText. simpl spacedRolls.
  rewrite (pieces_space1 " " _ eq_refl).
  rewrite (pieces_plain_app _ _ Hplain).
  change (" " +:+ rollsText rest) with (String " " (rollsText rest)).
  rewrite trimRight_cons_keep.
  - rewrite trimRight_bytes_app, unpieces_cons.
    rewrite unpieces_bytes_app, IH. reflexivity.
  - rewrite trimRight_bytes_app.
    destruct (Go.Sprintf_d roll); [now contradiction Hne | discriminate].
Qed.

(** The detail of a numeric result, for a request without white space:
    the request, a colon, and each roll after one space. *)
Lemma detail_text (token : string) (rolls : list Z) :
  Go.pieces token = bytePieces token ->
  Go.TrimSpace (token +:+ ": " +:+ rollsText rolls)
  = token +:+ ":" +:+ spacedRolls rolls.
Proof.
  intros Hplain. unfold Go.TrimSpace.
  change (token +:+ ": " +:+ rollsText rolls)
    with (token +:+ String ":" (String " " (rollsText rolls))).
  rewrite (pieces_before_ascii (String.length token)); [|lia|reflexivity].
  rewrite (pieces_plain ":" _ eq_refl), Hplain.
  rewrite trimLeft_bytes_app, trimRight_bytes_app, trimRight_cons_byte.
  rewrite unpieces_bytes_app, unpieces_cons.
  now rewrite rollsText_trimRight.
Qed.

(** *** The requests [Fields] returns hold no white space *)

Lemma pieces_byte_inv (s : string) (c : ascii) (ps : list Go.piece) :
  Go.pieces s = Go.Byte c :: ps ->
  exists s1, s = String c s1 /\ ps = Go.pieces s1.
Proof.
  destruct s as [|c1 s1]; [discriminate|].
  destruct (Go.isSpace1 c1) eqn:E1;
    [rewrite (pieces_space1 _ _ E1); discriminate|].
  destruct s1 as [|c2 s2].
  { rewrite (pieces_byte1 _ E1). intros H. inversion H; subst. eauto. }
  destruct (Go.isSpace2 c1 c2) eqn:E2;
    [rewrite (pieces_space2 _ _ _ E1 E2); discriminate|].
  destruct s2 as [|c3 s3].
  { rewrite (pieces_byte2 _ _ E1 E2). intros H. inversion H; subst. eauto. }
  destruct (Go.isSpace3 c1 c2 c3) eqn:E3;
    [rewrite (pieces_space3 _ _ _ _ E1 E2 E3); discriminate|].
  rewrite (pieces_byte3 _ _ _ _ E1 E2 E3). intros H. inversion H; subst. eauto.
Qed.

Lemma pieces_space_inv (s w : string) (ps : list Go.piece) :
  Go.pieces s = Go.Space w :: ps -> exists s', ps = Go.pieces s'.
Proof.
  destruct s as [|c1 s1]; [discriminate|].
  destruct (Go.isSpace1 c1) eqn:E1.
  { rewrite (pieces_space1 _ _ E1). intros H. inversion H; subst. eauto. }
  destruct s1 as [|c2 s2]; [rewrite (pieces_byte1 _ E1); discriminate|].
  destruct (Go.isSpace2 c1 c2) eqn:E2.
  { rewrite (pieces_space2 _ _ _ E1 E2). intros H. inversion H; subst. eauto. }
  destruct s2 as [|c3 s3]; [rewrite (pieces_byte2 _ _ E1 E2); discriminate|].
  destruct (Go.isSpace3 c1 c2 c3) eqn:E3.
  { rewrite (pieces_space3 _ _ _ _ E1 E2 E3). intros H. inversion H; subst.
    eauto. }
  rewrite (pieces_byte3 _ _ _ _ E1 E2 E3). discriminate.
Qed.

Lemma bytePieces_cons (c : ascii) (t : string) (rest : list Go.piece) :
  (bytePieces (String c t) ++ rest)%list
  = Go.Byte c :: (bytePieces t ++ rest)%list.
Proof. reflexivity. Qed.

Lemma pieces_bytes_inv (t : string) :
  forall (s : string) (rest : list Go.piece),
    Go.pieces s = (bytePieces t ++ rest)%list ->
    exists v, s = t +:+ v /\ Go.pieces v = rest.
Proof.
  induction t as [|c t IH]; intros s rest H.
  - exists s. auto.
  - rewrite bytePieces_cons in H.
    apply pieces_byte_inv in H as (s1 & -> & H1).
    destruct (IH s1 rest (eq_sym H1)) as (v & -> & Hv).
    exists v. auto.
Qed.

(** A run of bytes cut out of a scan is scanned alone as the same
    bytes. *)
Lemma pieces_run_alone (t : string) :
  forall (v : string) (rest : list Go.piece),
    Go.pieces (t +:+ v) = (bytePieces t ++ rest)%list ->
    Go.pieces t = bytePieces t.
Proof.
  induction t as [|c t IH]; intros v rest H; [reflexivity|].
  assert (Ht : Go.pieces t = bytePieces t).
  { rewrite bytePieces_cons, append_cons in H.
    apply pieces_byte_inv in H as (s1 & Hs & H1).
    injection Hs as <-. exact (IH v rest (eq_sym H1)). }
  rewrite bytePieces_cons, append_cons in H.
  change (bytePieces (String c t)) with (Go.Byte c :: bytePieces t).
  destruct (Go.isSpace1 c) eqn:E1;
    [rewrite (pieces_space1 _ _ E1) in H; discriminate|].
  destruct t as [|c2 t2]; [now apply pieces_byte1|].
  rewrite append_cons in H.
  destruct (Go.isSpace2 c c2) eqn:E2;
    [rewrite (pieces_space2 _ _ _ E1 E2) in H; discriminate|].
  destruct t2 as [|c3 t3].
  { rewrite (pieces_byte2 _ _ E1 E2). now rewrite Ht. }
  rewrite append_cons in H.
  destruct (Go.isSpace3 c c2 c3) eqn:E3;
    [rewrite (pieces_space3 _ _ _ _ E1 E2 E3) in H; discriminate|].
  rewrite (pieces_byte3 _ _ _ _ E1 E2 E3). now rewrite Ht.
Qed.

Lemma fieldsOf_run (t : string) (rest : list Go.piece) :
  t <> EmptyString -> endsRun rest ->
  Go.fieldsOf (bytePieces t ++ rest) = t :: Go.fieldsOf rest.
Proof.
  intros Hne Hrest. induction t as [|c t IH]; [now contradiction Hne|].
  unfold bytePieces in *. destruct t as [|c2 t2].
  - simpl. destruct Hrest as [-> | (w & r & ->)]; reflexivity.
  - assert (Hstep : Go.fieldsOf
                      (map Go.Byte (list_ascii_of_string (String c2 t2)) ++ rest)
                    = String c2 t2 :: Go.fieldsOf rest)
      by (apply IH; discriminate).
    change (Go.fieldsOf
              (map Go.Byte (list_ascii_of_string (String c (String c2 t2)))
                 ++ rest))
      with (match
               Go.fieldsOf
                 (map Go.Byte (list_ascii_of_string (String c2 t2)) ++ rest)
             with
             | f :: fs => String c f :: fs
             | [] => [String c EmptyString]
             end).
    now rewrite Hstep.
Qed.

Lemma split_run (ps : list Go.piece) :
  exists t rest, ps = (bytePieces t ++ rest)%list /\ endsRun rest.
Proof.
  induction ps as [|p ps IH].
  - exists EmptyString, []. split; [reflexivity | now left].
  - destruct p as [w|c].
    + exists EmptyString, (Go.Space w :: ps).
      split; [reflexivity | right; eauto].
    + destruct IH as (t & rest & -> & Hrest).
      exists (String c t), rest. split; [reflexivity | exact Hrest].
Qed.

Lemma bytePieces_length (t : string) :
  length (bytePieces t) = String.length t.
Proof.
  unfold bytePieces. induction t as [|c t IH]; simpl; [reflexivity|].
  now rewrite IH.
Qed.

Lemma fieldsOf_plain (n : nat) :
  forall (s : string),
    (length (Go.pieces s) <= n)%nat ->
    forall f, In f (Go.fieldsOf (Go.pieces s)) -> Go.pieces f = bytePieces f.
Proof.
  induction n as [|n IH]; intros s Hlen f Hin.
  - destruct (Go.pieces s); [destruct Hin | simpl in Hlen; lia].
  - destruct (split_run (Go.pieces s)) as (t & rest & Hps & Hrest).
    destruct t as [|c t].
    + simpl in Hps. destruct Hrest as [-> | (w & r & ->)].
      * rewrite Hps in Hin. destruct Hin.
      * rewrite Hps in Hin, Hlen. simpl in Hin, Hlen.
        destruct (pieces_space_inv _ _ _ Hps) as [s' ->].
        apply (IH s'); [lia | exact Hin].
    + destruct (pieces_bytes_inv _ _ _ Hps) as (v & -> & Hv).
      rewrite Hps, fieldsOf_run in Hin; [|discriminate | exact Hrest].
      destruct Hin as [<- | Hin].
      * exact (pieces_run_alone _ _ _ Hps).
      * rewrite <- Hv in Hin. apply (IH v); [|exact Hin].
        rewrite Hps, length_app, bytePieces_length in Hlen.
        rewrite Hv. simpl in Hlen. lia.
Qed.

(** Every request that [Fields] cuts out is scanned as plain bytes. *)
Lemma Fields_plain (s f : string) :
  In f (Go.Fields s) -> Go.pieces f = bytePieces f.
Proof.
  unfold Go.Fields. apply (fieldsOf_plain (length (Go.pieces s))). lia.
Qed.

Section Lines.

Context {Rng : Type} {error : Type} (Error : error -> string).
Context (rollDice : string -> Rng -> (rollResult + error) * Rng).
Context (GetUser : string -> User + AppError).
Context (diceBotID : string).

Local Abbreviation post := (generateDicePost Error rollDice GetUser diceBotID).

(** X14.  Each line of the breakdown reads as the request as it was
    typed, a colon, and the rolls, each after one space, with no space at
    the end (a numeric result without a roll gives the request and the
    colon alone); the line of a modifier is the modifier with its sign. *)
Theorem breakdown_lines_read
  (query userID channelID rootID : string) (g g' : Rng) (user : User)
  (p : Post) :
  GetUser userID = inl user ->
  post query userID channelID rootID g = (inl p, g') ->
  exists rs,
    Evaluate rollDice query g = (inl (rs, total rs), g')
    /\ Message p
       = summary (displayNameOf user) (defaultQuery query)
           (Go.wrap (total rs)) (Go.wrap (diceRolled rs))
           (map
              (fun tr =>
                 match rollType tr.2 with
                 | numeric => tr.1 +:+ ":" +:+ spacedRolls (results tr.2)
                 | modifier => Go.Sprintf_plus_d (sumModifier tr.2)
                 end) rs).
Proof.
  intros Huser Hpost.
  destruct (generateDicePost_post _ _ _ _ _ _ _ _ _ _ _ _ Huser Hpost)
    as (rs & st & Hev & Htok & Hrun & Hs & Hn & Hd & Hm).
  exists rs. split; [exact Hev|]. rewrite Hm. f_equal.
  pose proof (evalTokens_requests _ _ _ _ _ Htok) as Hreq.
  assert (Hplain : forall tr, In tr rs -> Go.pieces tr.1 = bytePieces tr.1).
  { intros tr Hin. apply (Fields_plain (defaultQuery query)).
    assert (Hf : In tr.1 (List.filter notSum (Go.Fields (defaultQuery query)))).
    { rewrite <- Hreq. now apply in_map. }
    apply List.filter_In in Hf. tauto. }
  clear -Hplain. induction rs as [|tr rs IH]; [reflexivity|].
  simpl. f_equal.
  - unfold detailLine. destruct (rollType tr.2); [|reflexivity].
    apply detail_text, Hplain. now left.
  - apply IH. intros tr' Hin. apply Hplain. now right.
Qed.

End Lines.

(** *** The commands at work *)

Lemma demo_accepts_posts :
  forall (p : Post) (s : Demo.Server),
    exists p' s', API.CreatePost Demo.api p s = (inl p', s').
Proof. intros p s. eexists _, _. reflexivity. Qed.

Lemma trigger_error_iff_witness :
  Demo.run Demo.api "/dice 3" 42 ([], [])
  = (inr (triggerError "/dice 3"), 42, ([], [])).
Proof.
  apply (proj1 (trigger_error_iff Spec.Error
                  (Spec.rollDice (source := Demo.lcg)) "dicebot" Demo.api
                  (CommandArgs.mk "/dice 3" "u1" "c1" "r1") 42 ([], [])));
    reflexivity.
Defined.

Lemma help_does_nothing_else_witness :
  Demo.run Demo.api "/rollAndClose  --help " 42 ([], [])
  = (inl GetHelpMessage, 42, ([], [])).
Proof.
  apply (help_does_nothing_else Spec.Error
           (Spec.rollDice (source := Demo.lcg)) "dicebot" Demo.api
           (CommandArgs.mk "/rollAndClose  --help " "u1" "c1" "r1")
           "  --help " 42 ([], [])); [reflexivity | right; reflexivity].
Defined.

Lemma close_posts_announcement_witness :
  Demo.run Demo.api "/closet now" 42 ([], [])
  = (inl emptyResponse, 42,
     ([], [mkPost "dicebot" "c1" "r1"
             ("**Rien ne va plus!!!!**" +:+ Go.newline
                +:+ "_bob closes the round._")])).
Proof.
  rewrite (close_posts_announcement Spec.Error
             (Spec.rollDice (source := Demo.lcg)) "dicebot" Demo.api
             (CommandArgs.mk "/closet now" "u1" "c1" "r1") 42 ([], [])
             (mkUser EmptyString "bob") eq_refl eq_refl).
  reflexivity.
Defined.

Lemma roll_posts_once_witness :
  Demo.run Demo.api "/roll  2d6 " 42 ([], [])
  = (inl emptyResponse, 4159066171780167020,
     ([], [mkPost "dicebot" "c1" "r1"
             ("**bob** rolls *2d6* = **7**" +:+ Go.newline +:+ "- 2d6: 1 6")])).
Proof.
  rewrite (roll_posts_once Spec.Error
             (Spec.rollDice (source := Demo.lcg)) "dicebot" Demo.api
             (CommandArgs.mk "/roll  2d6 " "u1" "c1" "r1") "  2d6 "
             42 ([], []) eq_refl eq_refl eq_refl).
  vm_compute. reflexivity.
Defined.

Lemma rollAndClose_posts_in_order_witness :
  exists dice g',
    Demo.post "2d6" 42 = (inl dice, g')
    /\ Demo.run Demo.api "/rollAndClose 2d6" 42 ([], [])
       = (inl emptyResponse, g',
          ([], [dice;
                mkPost "dicebot" "c1" "r1"
                  ("**Rien ne va plus!!!!**" +:+ Go.newline
                     +:+ "_bob closes the round._")])).
Proof.
  assert (Hpost : exists dice g', Demo.post "2d6" 42 = (inl dice, g'))
    by (vm_compute; eexists _, _; reflexivity).
  destruct Hpost as (dice & g' & Hpost).
  exists dice, g'. split; [exact Hpost|].
  apply (rollAndClose_posts_in_order Spec.Error
           (Spec.rollDice (source := Demo.lcg)) "dicebot" Demo.api
           (CommandArgs.mk "/rollAndClose 2d6" "u1" "c1" "r1") " 2d6"
           42 g' ([], []) ([], [dice]) _ (mkUser EmptyString "bob")
           dice dice _ eq_refl eq_refl eq_refl Hpost eq_refl eq_refl).
Defined.

Lemma rollAndClose_failed_roll_witness :
  exists e,
    Demo.post "abc" 42 = (inr e, 42)
    /\ Demo.run Demo.api "/rollAndClose abc" 42 ([], [])
       = (inr e, 42, ([], [])).
Proof.
  assert (Hpost : exists e, Demo.post "abc" 42 = (inr e, 42))
    by (vm_compute; eexists; reflexivity).
  destruct Hpost as (e & Hpost).
  exists e. split; [exact Hpost|].
  apply (rollAndClose_failed_roll Spec.Error
           (Spec.rollDice (source := Demo.lcg)) "dicebot" Demo.api
           (CommandArgs.mk "/rollAndClose abc" "u1" "c1" "r1") " abc"
           42 42 ([], []) e eq_refl eq_refl Hpost).
Defined.

Lemma rollAndClose_failed_close_witness :
  exists dice g',
    Demo.post "2d6" 42 = (inl dice, g')
    /\ Demo.run Demo.onePostApi "/rollAndClose 2d6" 42 ([], [])
       = (inr (mkAppError "CreatePost" "channel is full" EmptyString 500),
          g', ([], [dice])).
Proof.
  assert (Hpost : exists dice g', Demo.post "2d6" 42 = (inl dice, g'))
    by (vm_compute; eexists _, _; reflexivity).
  destruct Hpost as (dice & g' & Hpost).
  exists dice, g'. split; [exact Hpost|].
  apply (rollAndClose_failed_close Spec.Error
           (Spec.rollDice (source := Demo.lcg)) "dicebot" Demo.onePostApi
           (CommandArgs.mk "/rollAndClose 2d6" "u1" "c1" "r1") " 2d6"
           42 g' ([], []) ([], [dice]) ([], [dice]) (mkUser EmptyString "bob")
           dice dice _ eq_refl eq_refl eq_refl Hpost eq_refl eq_refl).
Defined.

Lemma blank_command_rolls_100_witness :
  Demo.run Demo.api ("/roll" +:+ String "009" " ") 42 ([], [])
  = Demo.run Demo.api "/roll 100" 42 ([], []).
Proof.
  apply (proj1 (blank_command_rolls_100 Spec.Error
                  (Spec.rollDice (source := Demo.lcg)) "dicebot" Demo.api
                  (String "009" " ") "u1" "c1" "r1" 42 ([], []) eq_refl)).
Defined.

Lemma sum_command_is_empty_witness :
  Demo.run Demo.api "/roll   sum  " 42 ([], [])
  = (inr (appError emptyRequestMessage None), 42, ([], [])).
Proof.
  apply (sum_command_is_empty Spec.Error
           (Spec.rollDice (source := Demo.lcg)) "dicebot" Demo.api
           (CommandArgs.mk "/roll   sum  " "u1" "c1" "r1") "   sum  "
           42 ([], []) (mkUser EmptyString "bob") eq_refl eq_refl).
  left. reflexivity.
Defined.

Lemma spacing_is_irrelevant_witness :
  Evaluate (Spec.rollDice (source := Demo.lcg))
    ("5" +:+ String "009" "D8  +2 ") 42
  = Evaluate (Spec.rollDice (source := Demo.lcg)) "5 D8 +2" 42.
Proof.
  apply (proj1 (spacing_is_irrelevant Spec.Error
                  (Spec.rollDice (source := Demo.lcg)) Demo.GetUser "dicebot"
                  ("5" +:+ String "009" "D8  +2 ") "5 D8 +2" "u1" "c1" "r1" 42
                  (mkUser EmptyString "bob") eq_refl eq_refl
                  ltac:(discriminate) ltac:(discriminate)
                  ltac:(discriminate))).
Defined.

Lemma registered_triggers_are_served_witness :
  (Demo.run Demo.api "/rollAndClose 2d6" 42 ([], [])).1.1
  <> inr (triggerError "/rollAndClose 2d6").
Proof.
  apply (registered_triggers_are_served Spec.Error
           (Spec.rollDice (source := Demo.lcg)) "dicebot" Demo.api
           rollAndCloseCmd " 2d6" "u1" "c1" "r1" 42 ([], [])
           (mkUser EmptyString "bob") eq_refl demo_accepts_posts).
  right. right. left. reflexivity.
Defined.

Lemma breakdown_lines_read_witness :
  exists p g' rs,
    Demo.post "0D6 2d6 -4" 42 = (inl p, g')
    /\ Message p
       = summary "bob" "0D6 2d6 -4" (Go.wrap (total rs))
           (Go.wrap (diceRolled rs))
           (map
              (fun tr =>
                 match rollType tr.2 with
                 | numeric => tr.1 +:+ ":" +:+ spacedRolls (results tr.2)
                 | modifier => Go.Sprintf_plus_d (sumModifier tr.2)
                 end) rs).
Proof.
  assert (Hpost : exists p g', Demo.post "0D6 2d6 -4" 42 = (inl p, g'))
    by (vm_compute; eexists _, _; reflexivity).
  destruct Hpost as (p & g' & Hpost).
  destruct (breakdown_lines_read Spec.Error
              (Spec.rollDice (source := Demo.lcg)) Demo.GetUser "dicebot"
              "0D6 2d6 -4" "u1" "c1" "r1" 42 g' (mkUser EmptyString "bob") p
              eq_refl Hpost)
    as (rs & _ & Hm).
  exists p, g', rs. split; [exact Hpost | exact Hm].
Defined.

(** A result without a roll shows the request and the colon alone. *)
Example empty_rolls_line :
  Demo.messageOf (Demo.post "0D6 2d6 -4" 42)
  = "**bob** rolls *0D6 2d6 -4* = **3**" +:+ Go.newline
      +:+ "- 0D6:" +:+ Go.newline
      +:+ "- 2d6: 1 6" +:+ Go.newline
      +:+ "- -4".
Proof. vm_compute. reflexivity. Qed.
